(** * Header construction in the five text-extraction option styles

    Shallow embedding of [1.simple.py], [2.extend.py], [3.config.py],
    [4.functional.py] and [5.chains.py].  Every style ends in
    [requests.post("dummy_url", data=file, headers=headers)]; the embedding
    of each [get_text] returns the [headers] dictionary that reaches that
    call (or the exception raised before it), since the transport and its
    response are external. *)

From Stdlib Require Import ZArith String List Permutation Lia.
From stdpp Require Import base option list gmap strings fin_maps.

Local Open Scope string_scope.
Local Open Scope Z_scope.

(** ** Python values

    The values that can reach the dynamically checked parameters
    ([timeout], [seconds], [rotate_angle], [degrees]) and the values stored
    in a header dictionary.  A finite float is kept as the dyadic number
    [m * 2^e]; floats only ever meet [isinstance] and [==] in this code. *)

Inductive pyfloat : Type :=
  | FFinite (m e : Z)
  | FInf (negative : bool)
  | FNan.

Inductive pyval : Type :=
  | PNone
  | PBool (b : bool)
  | PInt (z : Z)
  | PFloat (f : pyfloat)
  | PStr (s : string).

#[global] Instance pyfloat_eq_dec : EqDecision pyfloat.
Proof. solve_decision. Defined.

#[global] Instance pyval_eq_dec : EqDecision pyval.
Proof. solve_decision. Defined.

(** [isinstance(v, int)]: [bool] is a subclass of [int]; the result carries
    the integer the value compares as. *)
Definition as_int (v : pyval) : option Z :=
  match v with
  | PInt z => Some z
  | PBool b => Some (Z.b2z b)
  | _ => None
  end.

(** [v == n] for an integer literal [n]. *)
Definition py_eq_int (v : pyval) (n : Z) : bool :=
  match v with
  | PInt z => z =? n
  | PBool b => Z.b2z b =? n
  | PFloat (FFinite m e) =>
      if 0 <=? e then m * 2 ^ e =? n else m =? n * 2 ^ (- e)
  | _ => false
  end.

(** [v in (n1, n2, ...)] for a tuple or list of integer literals. *)
Definition py_in (v : pyval) (ns : list Z) : bool :=
  existsb (py_eq_int v) ns.

Definition is_None (v : pyval) : bool :=
  match v with PNone => true | _ => false end.

(** ** Exceptions and results *)

Inductive exn : Type :=
  | TypeError (msg : string)
  | ValueError (msg : string)
  | ValidationError (errors : list string).

Inductive result (A : Type) : Type :=
  | Ok (a : A)
  | Raise (e : exn).
Arguments Ok {A} a.
Arguments Raise {A} e.

#[global] Instance result_ret : MRet result := λ A a, Ok a.
#[global] Instance result_bind : MBind result := λ A B f r,
  match r with
  | Ok a => f a
  | Raise e => Raise e
  end.

#[global] Instance exn_eq_dec : EqDecision exn.
Proof. solve_decision. Defined.

#[global] Instance result_eq_dec {A} `{EqDecision A} : EqDecision (result A).
Proof. solve_decision. Defined.

Definition raises {A} (r : result A) : Prop :=
  match r with Ok _ => False | Raise _ => True end.

(** A header dictionary.  Keys are header names; dictionary equality does
    not depend on insertion order. *)
Abbreviation dict := (gmap string pyval).

Definition angles : list Z := [0; 90; 180; 270].

(** ** [1.simple.py] *)

Module Simple.

Record kwargs : Type := {
  as_plain_text : bool;
  with_ocr : bool;
}.

Definition defaults : kwargs :=
  {| as_plain_text := true; with_ocr := false |}.

Definition get_text (a : kwargs) : dict :=
  let headers : dict := ∅ in
  let headers :=
    if negb (with_ocr a) then <["SkipOCR" := PStr "true"]> headers
    else headers in
  let headers :=
    if as_plain_text a then <["Accept" := PStr "text/plain"]> headers
    else headers in
  headers.

End Simple.

(** ** [2.extend.py] *)

Module Extend.

Record kwargs : Type := {
  as_plain_text : bool;
  with_ocr : bool;
  timeout : pyval;
  with_bounding_boxes : bool;
  inline_ocr : bool;
  ocr_with_text : bool;
  rotate_angle : pyval;
  detect_tables : bool;
}.

Definition defaults : kwargs :=
  {| as_plain_text := true;
     with_ocr := false;
     timeout := PNone;
     with_bounding_boxes := false;
     inline_ocr := false;
     ocr_with_text := false;
     rotate_angle := PInt 0;
     detect_tables := false |}.

Definition get_text (a : kwargs) : result dict :=
  let headers : dict := ∅ in
  headers ←
    (if negb (is_None (timeout a)) then
       match as_int (timeout a) with
       | None => Raise (TypeError "Timeout must be an integer")
       | Some n =>
           if n <=? 0 then Raise (ValueError "Timeout must be positive")
           else Ok (<["timeout" := timeout a]> headers)
       end
     else Ok headers);
  headers ←
    (if negb (py_in (rotate_angle a) angles) then
       Raise (ValueError "rotate_angle must be 0, 90, 180, or 270")
     else if negb (py_eq_int (rotate_angle a) 0) then
       Ok (<["rotate_angle" := rotate_angle a]> headers)
     else Ok headers);
  let headers :=
    if detect_tables a then <["detect_tables" := PBool true]> headers
    else headers in
  let headers :=
    if with_bounding_boxes a
    then <["with_bounding_boxes" := PBool true]> headers
    else headers in
  let headers :=
    if ocr_with_text a then <["ocr_with_text" := PBool true]> headers
    else headers in
  let headers :=
    if as_plain_text a then <["as_plain_text" := PBool true]> headers
    else headers in
  let headers :=
    if negb (with_ocr a) then <["SkipOCR" := PStr "true"]> headers
    else headers in
  let headers :=
    if inline_ocr a then <["inline_ocr" := PStr "true"]> headers
    else headers in
  let headers :=
    if as_plain_text a then <["Accept" := PStr "text/plain"]> headers
    else headers in
  Ok headers.

End Extend.

(** ** [3.config.py]

    [TextExtractionConfig] is a pydantic model: the library converts every
    supplied field to its annotated type before the class's field
    validators run, so the fields are typed here ([bool], [Optional[int]],
    [int]).  Construction reports the failures of all field validators in
    one [ValidationError]. *)

Module Config.

Record TextExtractionConfig : Type := {
  as_plain_text : bool;
  with_ocr : bool;
  timeout : option Z;
  with_bounding_boxes : bool;
  inline_ocr : bool;
  ocr_with_text : bool;
  rotate_angle : Z;
  detect_tables : bool;
}.

(** The field defaults of the class body. *)
Definition defaults : TextExtractionConfig :=
  {| as_plain_text := true;
     with_ocr := false;
     timeout := None;
     with_bounding_boxes := false;
     inline_ocr := false;
     ocr_with_text := false;
     rotate_angle := 0;
     detect_tables := false |}.

Definition validate_timeout (value : option Z) : result (option Z) :=
  match value with
  | Some v =>
      if v <=? 0 then Raise (ValueError "Timeout must be positive")
      else Ok value
  | None => Ok value
  end.

Definition validate_rotate_angle (value : Z) : result Z :=
  if negb (existsb (Z.eqb value) angles)
  then Raise (ValueError "rotate_angle must be 0, 90, 180, or 270")
  else Ok value.

Definition error_of {A} (r : result A) : list string :=
  match r with
  | Ok _ => []
  | Raise (TypeError msg) | Raise (ValueError msg) => [msg]
  | Raise (ValidationError errors) => errors
  end.

(** The class constructor called with keyword fields: the validated
    values are the ones stored. *)
Definition new (fields : TextExtractionConfig)
  : result TextExtractionConfig :=
  match validate_timeout (timeout fields),
        validate_rotate_angle (rotate_angle fields) with
  | Ok t, Ok r =>
      Ok {| as_plain_text := as_plain_text fields;
            with_ocr := with_ocr fields;
            timeout := t;
            with_bounding_boxes := with_bounding_boxes fields;
            inline_ocr := inline_ocr fields;
            ocr_with_text := ocr_with_text fields;
            rotate_angle := r;
            detect_tables := detect_tables fields |}
  | rt, rr => Raise (ValidationError (error_of rt ++ error_of rr))
  end.

Definition to_headers (self : TextExtractionConfig) : dict :=
  let headers : dict := ∅ in
  let headers :=
    match timeout self with
    | Some t => <["timeout" := PInt t]> headers
    | None => headers
    end in
  let headers :=
    if negb (rotate_angle self =? 0)
    then <["rotate_angle" := PInt (rotate_angle self)]> headers
    else headers in
  let headers :=
    if with_ocr self then
      let headers := <["with_ocr" := PBool true]> headers in
      let headers :=
        if with_bounding_boxes self
        then <["with_bounding_boxes" := PBool true]> headers
        else headers in
      let headers :=
        if inline_ocr self then <["inline_ocr" := PBool true]> headers
        else headers in
      let headers :=
        if detect_tables self
        then <["detect_tables" := PBool true]> headers
        else headers in
      headers
    else headers in
  let headers :=
    if as_plain_text self then <["as_plain_text" := PBool true]> headers
    else headers in
  headers.

Definition get_text (config : option TextExtractionConfig) : dict :=
  let config := default defaults config in
  to_headers config.

(** *** The constructor on the values a caller passes

    [new] above is the validator stage: it sees fields that already have
    their annotated type.  A caller may pass any value for [timeout] and
    [rotate_angle]; the library converts it first, and the field validators
    of the class run on the converted value only.  [construct] below puts
    the two stages together. *)

Inductive conversion (A : Type) : Type :=
  | Converted (a : A)
  | Rejected
  | Unmodelled.
Arguments Converted {A} a.
Arguments Rejected {A}.
Arguments Unmodelled {A}.

(** Modelled from the library: the conversion of a value supplied for a
    field annotated [int].  An [int] is kept; a float is accepted when it is
    finite and has no fractional part (30.0 becomes 30) and refused
    otherwise; [None] is not an int.  What the library does with a [bool]
    or a [str] is left unmodelled. *)
Definition to_int (v : pyval) : conversion Z :=
  match v with
  | PInt n => Converted n
  | PFloat (FFinite m e) =>
      if 0 <=? e then Converted (m * 2 ^ e)
      else if m mod 2 ^ (- e) =? 0 then Converted (m / 2 ^ (- e))
      else Rejected
  | PFloat _ => Rejected
  | PNone => Rejected
  | PBool _ | PStr _ => Unmodelled
  end.

(** The same for a field annotated [Optional[int]]: [None] is kept. *)
Definition to_optional_int (v : pyval) : conversion (option Z) :=
  match v with
  | PNone => Converted None
  | _ =>
      match to_int v with
      | Converted n => Converted (Some n)
      | Rejected => Rejected
      | Unmodelled => Unmodelled
      end
  end.

(** The keyword arguments of a constructor call, [timeout] and
    [rotate_angle] as the caller passes them. *)
Record kwargs : Type := {
  kw_as_plain_text : bool;
  kw_with_ocr : bool;
  kw_timeout : pyval;
  kw_with_bounding_boxes : bool;
  kw_inline_ocr : bool;
  kw_ocr_with_text : bool;
  kw_rotate_angle : pyval;
  kw_detect_tables : bool;
}.

(** A field after conversion and validation: [Rejected] when the library
    refuses the value or the validator of the field raises. *)
Definition checked {A} (c : conversion A) (validate : A → result A)
  : conversion A :=
  match c with
  | Converted a =>
      match validate a with
      | Ok a' => Converted a'
      | Raise _ => Rejected
      end
  | Rejected => Rejected
  | Unmodelled => Unmodelled
  end.

(** The constructor call: [Rejected] when it raises a ValidationError,
    which it does as soon as one field is rejected. *)
Definition construct (a : kwargs) : conversion TextExtractionConfig :=
  match checked (to_optional_int (kw_timeout a)) validate_timeout,
        checked (to_int (kw_rotate_angle a)) validate_rotate_angle with
  | Converted t, Converted r =>
      Converted
        {| as_plain_text := kw_as_plain_text a;
           with_ocr := kw_with_ocr a;
           timeout := t;
           with_bounding_boxes := kw_with_bounding_boxes a;
           inline_ocr := kw_inline_ocr a;
           ocr_with_text := kw_ocr_with_text a;
           rotate_angle := r;
           detect_tables := kw_detect_tables a |}
  | Rejected, _ | _, Rejected => Rejected
  | _, _ => Unmodelled
  end.

End Config.

(** ** [4.functional.py]

    An [Option] is a function on the header dictionary.  A keyword
    parameter with a default is an [option bool]: [None] when the caller
    leaves it out. *)

Module Functional.

Definition Option : Type := dict → dict.

Definition AsPlainText : Option :=
  λ opt, <["as_plain_text" := PBool true]> opt.

Definition WithTimeout (seconds : pyval) : result Option :=
  match as_int seconds with
  | None => Raise (TypeError "Timeout must be an integer")
  | Some n =>
      if n <=? 0 then Raise (ValueError "Timeout must be positive")
      else Ok (λ opt, <["timeout" := seconds]> opt)
  end.

Definition WithRotation (degrees : pyval) : result Option :=
  if negb (py_in degrees angles)
  then Raise (ValueError "Rotation must be one of 0, 90, 180, 270")
  else Ok (λ opt,
         if negb (py_eq_int degrees 0)
         then <["rotate_angle" := degrees]> opt
         else opt).

Definition WithOCR (inline with_bounding_boxes detect_tables : option bool)
  : Option :=
  let inline := default false inline in
  let with_bounding_boxes := default false with_bounding_boxes in
  let detect_tables := default false detect_tables in
  λ opt,
    let opt := <["with_ocr" := PBool true]> opt in
    let opt := if inline then <["inline_ocr" := PBool true]> opt else opt in
    let opt :=
      if with_bounding_boxes
      then <["with_bounding_boxes" := PBool true]> opt
      else opt in
    let opt :=
      if detect_tables then <["detect_tables" := PBool true]> opt
      else opt in
    opt.

Definition get_text (options : list Option) : dict :=
  fold_left (λ headers option, option headers) options ∅.

(** The argument expressions of a [get_text(file, ...)] call; Python
    evaluates them left to right before the call, and the first one that
    raises ends it. *)
Inductive call : Type :=
  | CallAsPlainText
  | CallWithTimeout (seconds : pyval)
  | CallWithRotation (degrees : pyval)
  | CallWithOCR (inline with_bounding_boxes detect_tables : option bool).

Definition eval_call (c : call) : result Option :=
  match c with
  | CallAsPlainText => Ok AsPlainText
  | CallWithTimeout seconds => WithTimeout seconds
  | CallWithRotation degrees => WithRotation degrees
  | CallWithOCR i b d => Ok (WithOCR i b d)
  end.

Fixpoint eval_calls (cs : list call) : result (list Option) :=
  match cs with
  | [] => Ok []
  | c :: cs =>
      o ← eval_call c;
      os ← eval_calls cs;
      Ok (o :: os)
  end.

Definition get_text_calls (cs : list call) : result dict :=
  options ← eval_calls cs;
  Ok (get_text options).

End Functional.

(** ** [5.chains.py] *)

Module Chains.

Record Options : Type := { _options : dict }.

Definition init : Options := {| _options := ∅ |}.

Definition as_plain_text (self : Options) : Options :=
  {| _options := <["as_plain_text" := PBool true]> (_options self) |}.

Definition with_ocr (self : Options)
    (inline with_bounding_boxes detect_tables : option bool) : Options :=
  let inline := default true inline in
  let with_bounding_boxes := default false with_bounding_boxes in
  let detect_tables := default false detect_tables in
  let o := <["with_ocr" := PBool true]> (_options self) in
  let o := if inline then <["inline_ocr" := PBool true]> o else o in
  let o :=
    if with_bounding_boxes then <["with_bounding_boxes" := PBool true]> o
    else o in
  let o :=
    if detect_tables then <["detect_tables" := PBool true]> o else o in
  {| _options := o |}.

Definition timeout (self : Options) (seconds : pyval) : result Options :=
  match as_int seconds with
  | None => Raise (TypeError "Timeout must be an integer")
  | Some n =>
      if n <=? 0 then Raise (ValueError "Timeout must be positive")
      else Ok {| _options := <["timeout" := seconds]> (_options self) |}
  end.

Definition rotate (self : Options) (degrees : pyval) : result Options :=
  if negb (py_in degrees angles)
  then Raise (ValueError "Rotation must be one of 0, 90, 180, 270")
  else if negb (py_eq_int degrees 0)
  then Ok {| _options := <["rotate_angle" := degrees]> (_options self) |}
  else Ok self.

Definition build (self : Options) : dict := _options self.

Definition get_text (options : Options) : dict :=
  let headers := build options in
  headers.

(** One method call of a fluent chain [Options().m1(...).m2(...)]. *)
Inductive step : Type :=
  | StepAsPlainText
  | StepWithOcr (inline with_bounding_boxes detect_tables : option bool)
  | StepTimeout (seconds : pyval)
  | StepRotate (degrees : pyval).

Definition run_step (self : Options) (s : step) : result Options :=
  match s with
  | StepAsPlainText => Ok (as_plain_text self)
  | StepWithOcr i b d => Ok (with_ocr self i b d)
  | StepTimeout seconds => timeout self seconds
  | StepRotate degrees => rotate self degrees
  end.

Fixpoint chain_from (self : Options) (steps : list step) : result Options :=
  match steps with
  | [] => Ok self
  | s :: steps =>
      self ← run_step self s;
      chain_from self steps
  end.

(** [get_text(f, Options().m1(...)...mk(...))]. *)
Definition get_text_chain (steps : list step) : result dict :=
  options ← chain_from init steps;
  Ok (get_text options).

End Chains.

(** * Definitions used by the statements *)

(** ** The two scenarios of the specification

    The header maps the specification writes down for its scenarios; they
    follow its words, and are only compared with what the code builds. *)

Definition spec_default_headers : dict :=
  <["Accept" := PStr "text/plain"]> (<["SkipOCR" := PStr "true"]> ∅).

Definition spec_ocr_headers : dict :=
  <["with_ocr" := PBool true]>
    (<["with_bounding_boxes" := PBool true]>
      (<["rotate_angle" := PInt 90]>
        (<["timeout" := PInt 30]>
          (<["Accept" := PStr "text/plain"]> ∅)))).

(** "OCR enabled, bounding boxes on, rotate 90, timeout 30" in each style. *)

Definition extend_ocr_args : Extend.kwargs :=
  {| Extend.as_plain_text := true;
     Extend.with_ocr := true;
     Extend.timeout := PInt 30;
     Extend.with_bounding_boxes := true;
     Extend.inline_ocr := false;
     Extend.ocr_with_text := false;
     Extend.rotate_angle := PInt 90;
     Extend.detect_tables := false |}.

Definition config_ocr_fields : Config.TextExtractionConfig :=
  {| Config.as_plain_text := true;
     Config.with_ocr := true;
     Config.timeout := Some 30;
     Config.with_bounding_boxes := true;
     Config.inline_ocr := false;
     Config.ocr_with_text := false;
     Config.rotate_angle := 90;
     Config.detect_tables := false |}.

Definition config_ocr_run : result dict :=
  config ← Config.new config_ocr_fields;
  Ok (Config.get_text (Some config)).

Definition functional_ocr_calls : list Functional.call :=
  [Functional.CallWithOCR None (Some true) None;
   Functional.CallWithRotation (PInt 90);
   Functional.CallWithTimeout (PInt 30)].

Definition chains_ocr_steps (inline : option bool) : list Chains.step :=
  [Chains.StepWithOcr inline (Some true) None;
   Chains.StepRotate (PInt 90);
   Chains.StepTimeout (PInt 30)].

(** ** OCR and its sub-options *)

(** The settings that depend on with_ocr. *)
Definition ocr_children : list string :=
  ["with_bounding_boxes"; "inline_ocr"; "ocr_with_text"; "detect_tables"].

(** The headers [WithOCR] and [with_ocr] can write. *)
Definition ocr_keys : list string :=
  ["with_ocr"; "inline_ocr"; "with_bounding_boxes"; "detect_tables"].

(** with_ocr on, everything else off. *)
Definition config_bare_ocr : Config.TextExtractionConfig :=
  {| Config.as_plain_text := false;
     Config.with_ocr := true;
     Config.timeout := None;
     Config.with_bounding_boxes := false;
     Config.inline_ocr := false;
     Config.ocr_with_text := false;
     Config.rotate_angle := 0;
     Config.detect_tables := false |}.

Definition extend_bare_ocr : Extend.kwargs :=
  {| Extend.as_plain_text := false;
     Extend.with_ocr := true;
     Extend.timeout := PNone;
     Extend.with_bounding_boxes := false;
     Extend.inline_ocr := false;
     Extend.ocr_with_text := false;
     Extend.rotate_angle := PInt 0;
     Extend.detect_tables := false |}.

(** with_ocr off, every sub-option requested. *)
Definition extend_children_without_ocr : Extend.kwargs :=
  {| Extend.as_plain_text := true;
     Extend.with_ocr := false;
     Extend.timeout := PNone;
     Extend.with_bounding_boxes := true;
     Extend.inline_ocr := true;
     Extend.ocr_with_text := true;
     Extend.rotate_angle := PInt 0;
     Extend.detect_tables := true |}.

Definition config_children_without_ocr : Config.TextExtractionConfig :=
  {| Config.as_plain_text := true;
     Config.with_ocr := false;
     Config.timeout := None;
     Config.with_bounding_boxes := true;
     Config.inline_ocr := true;
     Config.ocr_with_text := true;
     Config.rotate_angle := 0;
     Config.detect_tables := true |}.

(** A sub-option header is only present next to with_ocr:true. *)
Definition children_need_ocr (h : dict) : Prop :=
  ∀ k, k ∈ ocr_children → is_Some (h !! k) →
       h !! "with_ocr" = Some (PBool true).

(** ** Options as dictionary updates *)

(** What an option writes: its effect on the empty dictionary. *)
Definition updates (o : Functional.Option) : dict := o ∅.

(** An option overrides the entries it writes and keeps the others. *)
Definition overrides (o : Functional.Option) : Prop :=
  ∀ opt : dict, o opt = updates o ∪ opt.

(** The option a call denotes; a call that raises denotes nothing. *)
Definition denote (c : Functional.call) : Functional.Option :=
  match Functional.eval_call c with
  | Ok o => o
  | Raise _ => λ opt, opt
  end.

(** A call whose argument passes validation. *)
Definition valid (c : Functional.call) : Prop :=
  ∃ o, Functional.eval_call c = Ok o.

(** The options of a call list applied left to right. *)
Definition apply_calls (cs : list Functional.call) (h : dict) : dict :=
  fold_left (λ headers c, denote c headers) cs h.

(** No two calls of the list set the same header to different values. *)
Definition no_conflict (cs : list Functional.call) : Prop :=
  (∀ v1 v2, Functional.CallWithTimeout v1 ∈ cs →
            Functional.CallWithTimeout v2 ∈ cs → v1 = v2)
  ∧ (∀ v1 v2, Functional.CallWithRotation v1 ∈ cs →
              Functional.CallWithRotation v2 ∈ cs →
              py_eq_int v1 0 = false → py_eq_int v2 0 = false → v1 = v2).

(** The functional call that does what a builder method does; the only
    difference is the default of [inline]. *)
Definition call_of_step (s : Chains.step) : Functional.call :=
  match s with
  | Chains.StepAsPlainText => Functional.CallAsPlainText
  | Chains.StepWithOcr i b d =>
      Functional.CallWithOCR (Some (default true i)) b d
  | Chains.StepTimeout v => Functional.CallWithTimeout v
  | Chains.StepRotate v => Functional.CallWithRotation v
  end.

(** The same for the method calls of a fluent chain. *)
Definition no_conflict_steps (ss : list Chains.step) : Prop :=
  (∀ v1 v2, Chains.StepTimeout v1 ∈ ss → Chains.StepTimeout v2 ∈ ss → v1 = v2)
  ∧ (∀ v1 v2, Chains.StepRotate v1 ∈ ss → Chains.StepRotate v2 ∈ ss →
              py_eq_int v1 0 = false → py_eq_int v2 0 = false → v1 = v2).

(** The timeouts [2.extend] accepts: none, or a positive integer. *)
Definition timeout_accepted (v : pyval) : Prop :=
  v = PNone ∨ ∃ n, as_int v = Some n ∧ 0 < n.

(** ** Definitions for the properties of the single styles *)

(** The header names each style can write. *)
Definition extend_keys : list string :=
  ["timeout"; "rotate_angle"; "detect_tables"; "with_bounding_boxes";
   "ocr_with_text"; "as_plain_text"; "SkipOCR"; "inline_ocr"; "Accept"].

Definition config_keys : list string :=
  ["timeout"; "rotate_angle"; "with_ocr"; "with_bounding_boxes";
   "inline_ocr"; "detect_tables"; "as_plain_text"].

Definition option_keys : list string :=
  ["as_plain_text"; "timeout"; "rotate_angle"; "with_ocr"; "inline_ocr";
   "with_bounding_boxes"; "detect_tables"].

(** The [2.extend] call that passes only the two settings [1.simple] has
    and leaves the added keyword arguments at their defaults. *)
Definition extend_of_simple (s : Simple.kwargs) : Extend.kwargs :=
  {| Extend.as_plain_text := Simple.as_plain_text s;
     Extend.with_ocr := Simple.with_ocr s;
     Extend.timeout := Extend.timeout Extend.defaults;
     Extend.with_bounding_boxes := Extend.with_bounding_boxes Extend.defaults;
     Extend.inline_ocr := Extend.inline_ocr Extend.defaults;
     Extend.ocr_with_text := Extend.ocr_with_text Extend.defaults;
     Extend.rotate_angle := Extend.rotate_angle Extend.defaults;
     Extend.detect_tables := Extend.detect_tables Extend.defaults |}.

(** A config with its [ocr_with_text] field replaced. *)
Definition set_ocr_with_text (b : bool) (c : Config.TextExtractionConfig)
  : Config.TextExtractionConfig :=
  {| Config.as_plain_text := Config.as_plain_text c;
     Config.with_ocr := Config.with_ocr c;
     Config.timeout := Config.timeout c;
     Config.with_bounding_boxes := Config.with_bounding_boxes c;
     Config.inline_ocr := Config.inline_ocr c;
     Config.ocr_with_text := b;
     Config.rotate_angle := Config.rotate_angle c;
     Config.detect_tables := Config.detect_tables c |}.

(** Two configs agree on every setting that can reach the headers: the
    sub-options count only under with_ocr, and ocr_with_text never. *)
Definition same_effective_settings (c1 c2 : Config.TextExtractionConfig)
  : Prop :=
  Config.as_plain_text c1 = Config.as_plain_text c2
  ∧ Config.with_ocr c1 = Config.with_ocr c2
  ∧ Config.timeout c1 = Config.timeout c2
  ∧ Config.rotate_angle c1 = Config.rotate_angle c2
  ∧ (Config.with_ocr c1 = true →
     Config.with_bounding_boxes c1 = Config.with_bounding_boxes c2
     ∧ Config.inline_ocr c1 = Config.inline_ocr c2
     ∧ Config.detect_tables c1 = Config.detect_tables c2).

(** A timeout header holds a positive integer and a rotate_angle header a
    value equal to 90, 180 or 270. *)
Definition valid_header_values (h : dict) : Prop :=
  (∀ t, h !! "timeout" = Some t → ∃ n, as_int t = Some n ∧ 0 < n)
  ∧ (∀ r, h !! "rotate_angle" = Some r →
          ∃ n, n ∈ [90; 180; 270] ∧ py_eq_int r n = true).

(** The header a call writes when it is applied. *)
Definition writes (c : Functional.call) (k : string) : Prop :=
  match c with
  | Functional.CallAsPlainText => k = "as_plain_text"
  | Functional.CallWithTimeout _ => k = "timeout"
  | Functional.CallWithRotation v => k = "rotate_angle" ∧ py_eq_int v 0 = false
  | Functional.CallWithOCR i b d =>
      k = "with_ocr"
      ∨ (k = "inline_ocr" ∧ i = Some true)
      ∨ (k = "with_bounding_boxes" ∧ b = Some true)
      ∨ (k = "detect_tables" ∧ d = Some true)
  end.

(** The functional options that ask for the settings of a config, in the
    order in which [to_headers] looks at them. *)
Definition calls_of_config (c : Config.TextExtractionConfig)
  : list Functional.call :=
  match Config.timeout c with
  | Some t => [Functional.CallWithTimeout (PInt t)]
  | None => []
  end
  ++ [Functional.CallWithRotation (PInt (Config.rotate_angle c))]
  ++ (if Config.with_ocr c
      then [Functional.CallWithOCR (Some (Config.inline_ocr c))
              (Some (Config.with_bounding_boxes c))
              (Some (Config.detect_tables c))]
      else [])
  ++ (if Config.as_plain_text c then [Functional.CallAsPlainText] else []).

(** ** Settings supplied once *)

(** The setting an option or a builder method supplies. *)
Inductive setting : Type :=
  | SPlainText
  | STimeout
  | SRotation
  | SOcr.

#[global] Instance setting_eq_dec : EqDecision setting.
Proof. solve_decision. Defined.

Definition call_setting (c : Functional.call) : setting :=
  match c with
  | Functional.CallAsPlainText => SPlainText
  | Functional.CallWithTimeout _ => STimeout
  | Functional.CallWithRotation _ => SRotation
  | Functional.CallWithOCR _ _ _ => SOcr
  end.

Definition step_setting (s : Chains.step) : setting :=
  match s with
  | Chains.StepAsPlainText => SPlainText
  | Chains.StepTimeout _ => STimeout
  | Chains.StepRotate _ => SRotation
  | Chains.StepWithOcr _ _ _ => SOcr
  end.

(** A collection of options that supplies no setting twice. *)
Definition supplied_once (cs : list Functional.call) : Prop :=
  NoDup (call_setting <$> cs).

Definition steps_supplied_once (ss : list Chains.step) : Prop :=
  NoDup (step_setting <$> ss).

(** ** A float timeout for [3.config.py] *)

(** The constructor called with timeout=30.0 and nothing else. *)
Definition config_float_timeout : Config.kwargs :=
  {| Config.kw_as_plain_text := true;
     Config.kw_with_ocr := false;
     Config.kw_timeout := PFloat (FFinite 15 1);
     Config.kw_with_bounding_boxes := false;
     Config.kw_inline_ocr := false;
     Config.kw_ocr_with_text := false;
     Config.kw_rotate_angle := PInt 0;
     Config.kw_detect_tables := false |}.

(** * Theorems *)

(** ** Sample runs *)

(** Closed equations between dictionaries are settled by evaluating their
    decision procedure. *)
Ltac by_eval := apply (bool_decide_unpack _); vm_compute; exact I.

Example functional_example_usage :
  Functional.get_text_calls
    [Functional.CallWithTimeout (PInt 30);
     Functional.CallWithOCR None (Some true) (Some false);
     Functional.CallWithRotation (PInt 180)]
  = Ok (<["timeout" := PInt 30]> (<["with_ocr" := PBool true]>
        (<["with_bounding_boxes" := PBool true]>
        (<["rotate_angle" := PInt 180]> ∅)))).
Proof. by_eval. Qed.

Example chains_example_usage :
  Chains.get_text_chain
    [Chains.StepWithOcr (Some true) (Some true) (Some false);
     Chains.StepTimeout (PInt 30);
     Chains.StepRotate (PInt 90);
     Chains.StepAsPlainText]
  = Ok (<["timeout" := PInt 30]> (<["with_ocr" := PBool true]>
        (<["with_bounding_boxes" := PBool true]>
        (<["inline_ocr" := PBool true]>
        (<["as_plain_text" := PBool true]>
        (<["rotate_angle" := PInt 90]> ∅)))))).
Proof. by_eval. Qed.

Example extend_example_usage :
  Extend.get_text
    {| Extend.as_plain_text := true; Extend.with_ocr := true;
       Extend.timeout := PInt 30; Extend.with_bounding_boxes := true;
       Extend.inline_ocr := true; Extend.ocr_with_text := true;
       Extend.rotate_angle := PInt 90; Extend.detect_tables := true |}
  = Ok (<["timeout" := PInt 30]> (<["rotate_angle" := PInt 90]>
        (<["detect_tables" := PBool true]>
        (<["with_bounding_boxes" := PBool true]>
        (<["ocr_with_text" := PBool true]>
        (<["as_plain_text" := PBool true]>
        (<["inline_ocr" := PStr "true"]>
        (<["Accept" := PStr "text/plain"]> ∅)))))))).
Proof. by_eval. Qed.

Example config_example_usage :
  (config ← Config.new
     {| Config.as_plain_text := true; Config.with_ocr := true;
        Config.timeout := Some 30; Config.with_bounding_boxes := true;
        Config.inline_ocr := true; Config.ocr_with_text := false;
        Config.rotate_angle := 0; Config.detect_tables := false |};
   Ok (Config.get_text (Some config)))
  = Ok (<["timeout" := PInt 30]> (<["with_ocr" := PBool true]>
        (<["with_bounding_boxes" := PBool true]>
        (<["inline_ocr" := PBool true]>
        (<["as_plain_text" := PBool true]> ∅))))).
Proof. by_eval. Qed.

(** [True] is an [int] for [isinstance], and [90.0 == 90]. *)
Example bool_timeout_is_accepted :
  Functional.get_text_calls [Functional.CallWithTimeout (PBool true)]
  = Ok {[ "timeout" := PBool true ]}.
Proof. by_eval. Qed.

Example float_timeout_is_rejected :
  Functional.get_text_calls [Functional.CallWithTimeout (PFloat (FFinite 15 1))]
  = Raise (TypeError "Timeout must be an integer").
Proof. by_eval. Qed.

Example float_rotation_is_accepted :
  Functional.get_text_calls
    [Functional.CallWithRotation (PFloat (FFinite 45 1))]
  = Ok {[ "rotate_angle" := PFloat (FFinite 45 1) ]}.
Proof. by_eval. Qed.

Example config_reports_both_failures :
  Config.new
    {| Config.as_plain_text := true; Config.with_ocr := false;
       Config.timeout := Some 0; Config.with_bounding_boxes := false;
       Config.inline_ocr := false; Config.ocr_with_text := false;
       Config.rotate_angle := 45; Config.detect_tables := false |}
  = Raise (ValidationError
             ["Timeout must be positive";
              "rotate_angle must be 0, 90, 180, or 270"]).
Proof. reflexivity. Qed.

(** ** Scenarios *)

(** C1, as stated, fails: for "OCR enabled, bounding boxes on, rotate 90,
    timeout 30" the four styles do not all build the header map
    {with_ocr:true, with_bounding_boxes:true, rotate_angle:90, timeout:30,
    Accept:"text/plain"}; in fact none of them does. *)
Lemma C1_facades_not_identical :
  ¬ (Extend.get_text extend_ocr_args = Ok spec_ocr_headers
     ∧ config_ocr_run = Ok spec_ocr_headers
     ∧ Functional.get_text_calls functional_ocr_calls = Ok spec_ocr_headers
     ∧ Chains.get_text_chain (chains_ocr_steps None) = Ok spec_ocr_headers).
Proof. by_eval. Qed.

(** C1 (amended): for "OCR enabled, bounding boxes on, rotate 90, timeout
    30" every style binds with_bounding_boxes:true, rotate_angle:90 and
    timeout:30, and the rest of the map depends on the style: 2.extend adds
    as_plain_text:true and Accept:"text/plain" and no with_ocr; 3.config
    adds with_ocr:true and has no Accept header (apart from a possible
    as_plain_text entry its map holds these four headers only);
    4.functional adds only with_ocr:true; 5.chains adds with_ocr:true and,
    unless inline=False is passed, inline_ocr:true. *)
Theorem C1_facade_outputs :
  Extend.get_text extend_ocr_args
  = Ok (<["timeout" := PInt 30]> (<["rotate_angle" := PInt 90]>
        (<["with_bounding_boxes" := PBool true]>
        (<["as_plain_text" := PBool true]>
        (<["Accept" := PStr "text/plain"]> ∅)))))
  ∧ (∃ h, config_ocr_run = Ok h
          ∧ delete "as_plain_text" h
            = <["timeout" := PInt 30]> (<["rotate_angle" := PInt 90]>
              (<["with_ocr" := PBool true]>
              (<["with_bounding_boxes" := PBool true]> ∅))))
  ∧ Functional.get_text_calls functional_ocr_calls
  = Ok (<["with_ocr" := PBool true]>
        (<["with_bounding_boxes" := PBool true]>
        (<["rotate_angle" := PInt 90]> (<["timeout" := PInt 30]> ∅))))
  ∧ Chains.get_text_chain (chains_ocr_steps None)
  = Ok (<["with_ocr" := PBool true]> (<["inline_ocr" := PBool true]>
        (<["with_bounding_boxes" := PBool true]>
        (<["rotate_angle" := PInt 90]> (<["timeout" := PInt 30]> ∅)))))
  ∧ Chains.get_text_chain (chains_ocr_steps (Some false))
  = Functional.get_text_calls functional_ocr_calls.
Proof.
  split; [by_eval|]. split.
  - exists (Config.to_headers config_ocr_fields). split; by_eval.
  - repeat split; by_eval.
Qed.

(** C5, as stated, fails: with no settings supplied the styles do not all
    build exactly {Accept:"text/plain", SkipOCR:"true"}. *)
Lemma C5_defaults_not_identical :
  ¬ (Simple.get_text Simple.defaults = spec_default_headers
     ∧ Extend.get_text Extend.defaults = Ok spec_default_headers
     ∧ Config.get_text None = spec_default_headers
     ∧ Functional.get_text_calls [] = Ok spec_default_headers
     ∧ Chains.get_text_chain [] = Ok spec_default_headers).
Proof. by_eval. Qed.

(** C5 (amended): with no settings supplied, 1.simple builds exactly
    {Accept:"text/plain", SkipOCR:"true"}; 2.extend builds that map plus
    as_plain_text:true; 3.config builds neither Accept nor SkipOCR (apart
    from a possible as_plain_text entry its map is empty); 4.functional and
    5.chains build the empty map. *)
Theorem C5_default_outputs :
  Simple.get_text Simple.defaults = spec_default_headers
  ∧ Extend.get_text Extend.defaults
    = Ok (<["as_plain_text" := PBool true]> spec_default_headers)
  ∧ delete "as_plain_text" (Config.get_text None) = ∅
  ∧ Functional.get_text_calls [] = Ok ∅
  ∧ Chains.get_text_chain [] = Ok ∅.
Proof. repeat split; by_eval. Qed.

(** ** Lookup in conditionally extended dictionaries *)

Section cond_insert.
Context (m : dict) (b : bool) (k : string) (v : pyval).

Lemma lookup_if_insert_eq :
  (if b then <[k := v]> m else m) !! k = if b then Some v else m !! k.
Proof. destruct b; [apply lookup_insert_eq | reflexivity]. Qed.

Lemma lookup_if_insert_ne (k' : string) :
  k ≠ k' → (if b then <[k := v]> m else m) !! k' = m !! k'.
Proof. intros Hne. destruct b; [by apply lookup_insert_ne | reflexivity]. Qed.
End cond_insert.

Ltac look :=
  repeat first
    [ rewrite lookup_if_insert_ne by done
    | rewrite lookup_if_insert_eq
    | rewrite lookup_insert_ne by done
    | rewrite lookup_insert_eq
    | rewrite lookup_empty ].

Ltac run_bind H := cbn [mbind result_bind] in H.

(** Case analysis of a successful [Extend.get_text]: the validation of
    [timeout] and [rotate_angle] is split, and the returned dictionary is
    substituted. *)
Ltac extend_ok H :=
  unfold Extend.get_text in H;
  destruct (negb (is_None (Extend.timeout _))) eqn:?;
    [ destruct (as_int (Extend.timeout _)) as [?n|] eqn:?;
      [ destruct (_ <=? 0) eqn:? | ] | ];
  run_bind H; try discriminate H;
  (destruct (negb (py_in _ angles)) eqn:?; [ discriminate H | ]);
  destruct (negb (py_eq_int _ 0)) eqn:?; run_bind H;
  injection H as <-.

Lemma extend_skip_ocr (a : Extend.kwargs) (h : dict) :
  Extend.get_text a = Ok h →
  (h !! "SkipOCR" = Some (PStr "true") ↔ Extend.with_ocr a = false)
  ∧ h !! "with_ocr" = None.
Proof.
  intros H. extend_ok H; look.
  all: destruct (Extend.with_ocr a); cbn [negb]; (split; [split|]); done.
Qed.

Ltac config_flags c :=
  destruct c as [pt ocr t bb il owt r dt];
  cbn [Config.as_plain_text Config.with_ocr Config.timeout
       Config.with_bounding_boxes Config.inline_ocr Config.ocr_with_text
       Config.rotate_angle Config.detect_tables] in *.

Lemma config_with_ocr_header (c : Config.TextExtractionConfig) :
  (Config.to_headers c !! "with_ocr" = Some (PBool true)
   ↔ Config.with_ocr c = true)
  ∧ Config.to_headers c !! "SkipOCR" = None.
Proof.
  unfold Config.to_headers; cbv zeta.
  destruct (Config.with_ocr c), (Config.timeout c); look; done.
Qed.

Lemma config_children_suppressed (c : Config.TextExtractionConfig) (k : string) :
  Config.with_ocr c = false → k ∈ ocr_children →
  Config.to_headers c !! k = None.
Proof.
  intros Hocr Hk. unfold Config.to_headers; cbv zeta. rewrite Hocr.
  unfold ocr_children in Hk. rewrite !elem_of_cons, elem_of_nil in Hk.
  destruct (Config.timeout c);
    destruct Hk as [->|[->|[->|[->|[]]]]]; look; done.
Qed.

(** C4, as stated, fails in each style that takes with_ocr as a value:
    3.config never emits SkipOCR (the default config has with_ocr false
    and no SkipOCR header), and 2.extend never emits with_ocr (with
    with_ocr=True, no sub-options and as_plain_text=False it builds the
    empty map, not {with_ocr:true}). *)
Lemma C4_no_style_has_both_headers :
  (Config.with_ocr Config.defaults = false
   ∧ Config.to_headers Config.defaults !! "SkipOCR" = None)
  ∧ (Extend.with_ocr extend_bare_ocr = true
     ∧ Extend.get_text extend_bare_ocr = Ok ∅).
Proof. repeat split; by_eval. Qed.

(** C4 (amended): in 1.simple and 2.extend the header SkipOCR:"true" is
    present iff with_ocr is false, and no with_ocr header is ever built; in
    3.config the header with_ocr:true is present iff with_ocr is true, and
    no SkipOCR header is ever built; a 3.config config with with_ocr=true,
    no sub-options, no timeout, no rotation and as_plain_text=false
    serializes to exactly {with_ocr:true}. *)
Theorem C4_ocr_header_by_style
    (s : Simple.kwargs) (a : Extend.kwargs) (h : dict)
    (c : Config.TextExtractionConfig) :
  Extend.get_text a = Ok h →
  ((Simple.get_text s !! "SkipOCR" = Some (PStr "true")
    ↔ Simple.with_ocr s = false)
   ∧ Simple.get_text s !! "with_ocr" = None)
  ∧ ((h !! "SkipOCR" = Some (PStr "true") ↔ Extend.with_ocr a = false)
     ∧ h !! "with_ocr" = None)
  ∧ ((Config.to_headers c !! "with_ocr" = Some (PBool true)
      ↔ Config.with_ocr c = true)
     ∧ Config.to_headers c !! "SkipOCR" = None)
  ∧ (Config.with_ocr c = true → Config.as_plain_text c = false →
     Config.timeout c = None → Config.rotate_angle c = 0 →
     Config.with_bounding_boxes c = false → Config.inline_ocr c = false →
     Config.detect_tables c = false →
     Config.to_headers c = {[ "with_ocr" := PBool true ]}).
Proof.
  intros Hext. split; [|split; [|split]].
  - unfold Simple.get_text; cbv zeta.
    destruct (Simple.with_ocr s); look; cbn [negb]; (split; [split|]); done.
  - by apply extend_skip_ocr.
  - apply config_with_ocr_header.
  - config_flags c. intros -> -> -> -> -> -> ->. reflexivity.
Qed.

Lemma C4_ocr_header_by_style_witness :
  Extend.get_text Extend.defaults
  = Ok (<["as_plain_text" := PBool true]> spec_default_headers)
  ∧ (<["as_plain_text" := PBool true]> spec_default_headers) !! "SkipOCR"
    = Some (PStr "true")
  ∧ Config.to_headers config_bare_ocr = {[ "with_ocr" := PBool true ]}.
Proof.
  assert (Hext : Extend.get_text Extend.defaults
                 = Ok (<["as_plain_text" := PBool true]> spec_default_headers))
    by by_eval.
  destruct (C4_ocr_header_by_style Simple.defaults Extend.defaults _
              config_bare_ocr Hext) as (_ & [Hskip _] & _ & Hbare).
  split; [exact Hext|].
  split; [apply Hskip; reflexivity | apply Hbare; reflexivity].
Defined.

(** ** The functional options as dictionary updates *)

Lemma AsPlainText_overrides : overrides Functional.AsPlainText.
Proof.
  intros opt. unfold updates, Functional.AsPlainText.
  by rewrite <- insert_union_l, (left_id_L ∅ (∪)).
Qed.

Lemma WithOCR_overrides (i b d : option bool) :
  overrides (Functional.WithOCR i b d).
Proof.
  intros opt. unfold updates, Functional.WithOCR; cbv zeta.
  destruct (default false i), (default false b), (default false d);
    by rewrite <- ?insert_union_l, (left_id_L ∅ (∪)).
Qed.

Lemma WithTimeout_Ok (v : pyval) (o : Functional.Option) :
  Functional.WithTimeout v = Ok o ↔
  (∃ n, as_int v = Some n ∧ 0 < n) ∧ o = (λ opt, <["timeout" := v]> opt).
Proof.
  unfold Functional.WithTimeout. destruct (as_int v) as [n|].
  - destruct (Z.leb_spec n 0); split.
    + discriminate.
    + intros [(n' & [= <-] & ?) _]. lia.
    + intros [= <-]. eauto.
    + intros [_ ->]. reflexivity.
  - split; [discriminate|]. by intros [(n & ? & _) _].
Qed.

Lemma WithRotation_Ok (v : pyval) (o : Functional.Option) :
  Functional.WithRotation v = Ok o ↔
  py_in v angles = true
  ∧ o = (λ opt, if negb (py_eq_int v 0)
                then <["rotate_angle" := v]> opt else opt).
Proof.
  unfold Functional.WithRotation. destruct (py_in v angles); cbn [negb]; split.
  - intros [= <-]. done.
  - intros [_ ->]. done.
  - discriminate.
  - intros [? _]. discriminate.
Qed.

Lemma eval_call_overrides (c : Functional.call) (o : Functional.Option) :
  Functional.eval_call c = Ok o → overrides o.
Proof.
  destruct c as [|v|v|i b d]; cbn [Functional.eval_call].
  - intros [= <-]. apply AsPlainText_overrides.
  - intros [_ ->]%WithTimeout_Ok opt. unfold updates.
    by rewrite <- insert_union_l, (left_id_L ∅ (∪)).
  - intros [_ ->]%WithRotation_Ok opt. unfold updates.
    destruct (negb (py_eq_int v 0));
      by rewrite <- ?insert_union_l, (left_id_L ∅ (∪)).
  - intros [= <-]. apply WithOCR_overrides.
Qed.

(** The entries each kind of option writes. *)
Lemma updates_lookup (c : Functional.call) (o : Functional.Option)
    (k : string) (x : pyval) :
  Functional.eval_call c = Ok o → updates o !! k = Some x →
  match c with
  | Functional.CallAsPlainText => k = "as_plain_text" ∧ x = PBool true
  | Functional.CallWithTimeout v => k = "timeout" ∧ x = v
  | Functional.CallWithRotation v =>
      k = "rotate_angle" ∧ x = v ∧ py_eq_int v 0 = false
  | Functional.CallWithOCR _ _ _ => k ∈ ocr_keys ∧ x = PBool true
  end.
Proof.
  unfold updates.
  destruct c as [|v|v|i b d]; cbn [Functional.eval_call].
  - intros [= <-]. unfold Functional.AsPlainText.
    intros [[<- <-]|[_ H]]%lookup_insert_Some; [done|].
    by rewrite lookup_empty in H.
  - intros [_ ->]%WithTimeout_Ok.
    intros [[<- <-]|[_ H]]%lookup_insert_Some; [done|].
    by rewrite lookup_empty in H.
  - intros [_ ->]%WithRotation_Ok.
    destruct (py_eq_int v 0); cbn [negb].
    + by rewrite lookup_empty.
    + intros [[<- <-]|[_ H]]%lookup_insert_Some; [done|].
      by rewrite lookup_empty in H.
  - intros [= <-]. unfold Functional.WithOCR, ocr_keys; cbv zeta.
    destruct (default false i), (default false b), (default false d);
      intros H;
      repeat (apply lookup_insert_Some in H as [[<- <-]|[_ H]];
              [split; [rewrite !elem_of_cons; tauto|done]|]);
      by rewrite lookup_empty in H.
Qed.

Lemma WithOCR_sets_with_ocr (i b d : option bool) :
  updates (Functional.WithOCR i b d) !! "with_ocr" = Some (PBool true).
Proof.
  unfold updates, Functional.WithOCR; cbv zeta.
  destruct (default false i), (default false b), (default false d);
    by look.
Qed.

(** Two updates that agree on shared keys can be applied in either order. *)
Lemma union_swap (u1 u2 h : dict) :
  (∀ k x y, u1 !! k = Some x → u2 !! k = Some y → x = y) →
  u1 ∪ (u2 ∪ h) = u2 ∪ (u1 ∪ h).
Proof.
  intros Hagree. apply map_eq; intros k. rewrite !lookup_union.
  destruct (u1 !! k) as [x|] eqn:H1, (u2 !! k) as [y|] eqn:H2;
    destruct (h !! k); cbn; try done.
  all: by rewrite (Hagree k x y H1 H2).
Qed.

(** A fold is invariant under permutation when the steps that occur
    commute. *)
Lemma fold_left_permutation {A B} (f : B → A → B) (l l' : list A) :
  l ≡ₚ l' →
  (∀ x y b, x ∈ l → y ∈ l → f (f b x) y = f (f b y) x) →
  ∀ b, fold_left f l b = fold_left f l' b.
Proof.
  induction 1 as [|x l l' Hp IH|x y l|l l' l'' Hp IH Hp' IH']; intros Hc b.
  - reflexivity.
  - cbn. apply IH. intros ? ? ? ? ?. apply Hc; by constructor.
  - cbn. f_equal. apply Hc; rewrite !elem_of_cons; tauto.
  - rewrite IH by done. apply IH'.
    intros ? ? ? ? ?. apply Hc; by rewrite Hp.
Qed.

(** ** Argument lists of the functional style *)

Lemma eval_calls_Ok (cs : list Functional.call) (os : list Functional.Option) :
  Functional.eval_calls cs = Ok os →
  Forall valid cs
  ∧ ∀ h, fold_left (λ headers option, option headers) os h = apply_calls cs h.
Proof.
  revert os. induction cs as [|c cs IH]; intros os; cbn.
  - intros [= <-]. split; [constructor | done].
  - destruct (Functional.eval_call c) as [o|e] eqn:Hc; [|discriminate].
    cbn [mbind result_bind].
    destruct (Functional.eval_calls cs) as [os'|e]; [|discriminate].
    cbn [mbind result_bind]. intros [= <-].
    destruct (IH os' eq_refl) as [Hv Hf]. split.
    + constructor; [by exists o | done].
    + intros h. unfold apply_calls. cbn. unfold denote at 2. rewrite Hc.
      apply Hf.
Qed.

Lemma eval_calls_valid (cs : list Functional.call) :
  Forall valid cs → ∃ os, Functional.eval_calls cs = Ok os.
Proof.
  induction 1 as [|c cs [o Ho] _ [os Hos]]; cbn.
  - by eexists.
  - rewrite Ho, Hos. by eexists.
Qed.

Lemma get_text_calls_Ok (cs : list Functional.call) (h : dict) :
  Functional.get_text_calls cs = Ok h ↔
  Forall valid cs ∧ h = apply_calls cs ∅.
Proof.
  unfold Functional.get_text_calls, Functional.get_text. split.
  - destruct (Functional.eval_calls cs) as [os|e] eqn:Hos; [|discriminate].
    cbn [mbind result_bind]. intros [= <-].
    destruct (eval_calls_Ok _ _ Hos) as [Hv Hf]. by rewrite Hf.
  - intros [Hv ->]. destruct (eval_calls_valid _ Hv) as [os Hos].
    rewrite Hos. cbn [mbind result_bind].
    destruct (eval_calls_Ok _ _ Hos) as [_ Hf]. by rewrite Hf.
Qed.

Lemma denote_commute (c1 c2 : Functional.call) (cs : list Functional.call)
    (h : dict) :
  no_conflict cs → c1 ∈ cs → c2 ∈ cs → valid c1 → valid c2 →
  denote c2 (denote c1 h) = denote c1 (denote c2 h).
Proof.
  intros [Ht Hr] H1 H2 [o1 Ho1] [o2 Ho2]. unfold denote. rewrite Ho1, Ho2.
  rewrite (eval_call_overrides _ _ Ho1 h), (eval_call_overrides _ _ Ho2 h).
  rewrite (eval_call_overrides _ _ Ho1), (eval_call_overrides _ _ Ho2).
  apply union_swap. intros k x y Hx Hy.
  pose proof (updates_lookup _ _ _ _ Ho1 Hy) as U1.
  pose proof (updates_lookup _ _ _ _ Ho2 Hx) as U2.
  unfold ocr_keys in *.
  destruct c1, c2; rewrite ?elem_of_cons, ?elem_of_nil in *;
    try (by intuition congruence).
  - destruct U1 as [_ ->], U2 as [_ ->]. symmetry. by apply Ht.
  - destruct U1 as (_ & -> & ?), U2 as (_ & -> & ?). symmetry. by apply Hr.
Qed.

Lemma apply_calls_permutation (cs cs' : list Functional.call) (h : dict) :
  cs ≡ₚ cs' → no_conflict cs → Forall valid cs →
  apply_calls cs h = apply_calls cs' h.
Proof.
  intros Hp Hn Hv. unfold apply_calls.
  apply fold_left_permutation; [done|].
  intros c1 c2 b H1 H2. rewrite Forall_forall in Hv.
  apply (denote_commute c1 c2 cs); auto.
Qed.

Lemma functional_order_independent (cs cs' : list Functional.call) (h : dict) :
  cs ≡ₚ cs' → no_conflict cs →
  Functional.get_text_calls cs = Ok h → Functional.get_text_calls cs' = Ok h.
Proof.
  intros Hp Hn [Hv ->]%get_text_calls_Ok. apply get_text_calls_Ok. split.
  - by rewrite <- Hp.
  - by apply apply_calls_permutation.
Qed.

(** ** The fluent builder, step by step, is the functional style *)

Lemma run_step_eval_call (self : Chains.Options) (s : Chains.step) :
  Chains.run_step self s
  = o ← Functional.eval_call (call_of_step s);
    Ok {| Chains._options := o (Chains._options self) |}.
Proof.
  destruct self as [opts].
  destruct s as [|i b d|v|v]; cbn [Chains.run_step call_of_step
    Functional.eval_call mbind result_bind Chains._options].
  - reflexivity.
  - reflexivity.
  - unfold Chains.timeout, Functional.WithTimeout.
    destruct (as_int v) as [n|]; [destruct (n <=? 0)|]; reflexivity.
  - unfold Chains.rotate, Functional.WithRotation.
    destruct (negb (py_in v angles)); [reflexivity|].
    cbn [mbind result_bind Chains._options].
    destruct (negb (py_eq_int v 0)); reflexivity.
Qed.

Lemma chain_from_eval_calls (steps : list Chains.step) (self : Chains.Options) :
  Chains.chain_from self steps
  = os ← Functional.eval_calls (call_of_step <$> steps);
    Ok {| Chains._options :=
            fold_left (λ headers option, option headers) os
                      (Chains._options self) |}.
Proof.
  revert self. induction steps as [|s steps IH]; intros self.
  - by destruct self.
  - rewrite fmap_cons. cbn [Chains.chain_from Functional.eval_calls].
    rewrite run_step_eval_call.
    destruct (Functional.eval_call (call_of_step s)) as [o|e];
      cbn [mbind result_bind]; [|reflexivity].
    rewrite IH.
    destruct (Functional.eval_calls (call_of_step <$> steps));
      reflexivity.
Qed.

Lemma chains_as_functional (steps : list Chains.step) :
  Chains.get_text_chain steps
  = Functional.get_text_calls (call_of_step <$> steps).
Proof.
  unfold Chains.get_text_chain, Functional.get_text_calls.
  rewrite chain_from_eval_calls.
  destruct (Functional.eval_calls (call_of_step <$> steps)); reflexivity.
Qed.

Lemma no_conflict_steps_calls (ss : list Chains.step) :
  no_conflict_steps ss → no_conflict (call_of_step <$> ss).
Proof.
  intros [Ht Hr]. split; intros v1 v2.
  - intros ([] & [= <-] & ?)%list_elem_of_fmap_1.
    intros ([] & [= <-] & ?)%list_elem_of_fmap_1. by apply Ht.
  - intros ([] & [= <-] & ?)%list_elem_of_fmap_1.
    intros ([] & [= <-] & ?)%list_elem_of_fmap_1. by apply Hr.
Qed.

Lemma chains_order_independent (ss ss' : list Chains.step) (h : dict) :
  ss ≡ₚ ss' → no_conflict_steps ss →
  Chains.get_text_chain ss = Ok h → Chains.get_text_chain ss' = Ok h.
Proof.
  rewrite !chains_as_functional. intros Hp Hn.
  apply functional_order_independent.
  - by rewrite Hp.
  - by apply no_conflict_steps_calls.
Qed.

(** Two timeouts (or two non-zero rotations) are resolved by position: the
    later one is kept, in the functional and in the fluent style. *)
Lemma repeated_setting_depends_on_order :
  [Functional.CallWithTimeout (PInt 10); Functional.CallWithTimeout (PInt 20)]
  ≡ₚ [Functional.CallWithTimeout (PInt 20); Functional.CallWithTimeout (PInt 10)]
  ∧ Functional.get_text_calls
      [Functional.CallWithTimeout (PInt 10);
       Functional.CallWithTimeout (PInt 20)]
    = Ok {[ "timeout" := PInt 20 ]}
  ∧ Functional.get_text_calls
      [Functional.CallWithTimeout (PInt 20);
       Functional.CallWithTimeout (PInt 10)]
    = Ok {[ "timeout" := PInt 10 ]}
  ∧ Chains.get_text_chain
      [Chains.StepRotate (PInt 90); Chains.StepRotate (PInt 180)]
    ≠ Chains.get_text_chain
        [Chains.StepRotate (PInt 180); Chains.StepRotate (PInt 90)].
Proof.
  split; [apply perm_swap|]. repeat split; by_eval.
Qed.

(** Elements of a list whose images are pairwise distinct are told apart
    by their image. *)
Lemma NoDup_fmap_eq {A B} (f : A → B) (l : list A) (x y : A) :
  NoDup (f <$> l) → x ∈ l → y ∈ l → f x = f y → x = y.
Proof.
  induction l as [|a l IH]; intros Hnd Hx Hy Hf.
  - by apply elem_of_nil in Hx.
  - rewrite fmap_cons in Hnd. apply NoDup_cons in Hnd as [Hna Hnd].
    apply elem_of_cons in Hx as [->|Hx]; apply elem_of_cons in Hy as [->|Hy].
    + reflexivity.
    + exfalso. apply Hna. rewrite Hf. by apply list_elem_of_fmap_2.
    + exfalso. apply Hna. rewrite <- Hf. by apply list_elem_of_fmap_2.
    + by apply IH.
Qed.

Lemma supplied_once_no_conflict (cs : list Functional.call) :
  supplied_once cs → no_conflict cs.
Proof.
  intros Hnd. split; intros v1 v2 H1 H2.
  - by pose proof (NoDup_fmap_eq _ _ _ _ Hnd H1 H2 eq_refl) as [= ->].
  - by pose proof (NoDup_fmap_eq _ _ _ _ Hnd H1 H2 eq_refl) as [= ->].
Qed.

Lemma steps_supplied_once_no_conflict (ss : list Chains.step) :
  steps_supplied_once ss → no_conflict_steps ss.
Proof.
  intros Hnd. split; intros v1 v2 H1 H2.
  - by pose proof (NoDup_fmap_eq _ _ _ _ Hnd H1 H2 eq_refl) as [= ->].
  - by pose proof (NoDup_fmap_eq _ _ _ _ Hnd H1 H2 eq_refl) as [= ->].
Qed.

(** C8: in the functional-options and fluent-builder styles a collection
    of options that supplies each setting at most once builds the same
    header map in every order: a permutation of the collection builds a map
    exactly when the collection does, and then it is the same map.  An OCR
    sub-option is an argument of WithOCR / with_ocr itself, so it cannot be
    supplied before or after OCR is enabled. *)
Theorem C8_order_independent
    (cs cs' : list Functional.call) (ss ss' : list Chains.step)
    (h g : dict) :
  cs ≡ₚ cs' → supplied_once cs →
  ss ≡ₚ ss' → steps_supplied_once ss →
  (Functional.get_text_calls cs = Ok h ↔ Functional.get_text_calls cs' = Ok h)
  ∧ (Chains.get_text_chain ss = Ok g ↔ Chains.get_text_chain ss' = Ok g).
Proof.
  intros Hp Hn Hq Hm.
  assert (Hn' : supplied_once cs') by (unfold supplied_once; by rewrite <- Hp).
  assert (Hm' : steps_supplied_once ss')
    by (unfold steps_supplied_once; by rewrite <- Hq).
  split; split.
  - apply functional_order_independent;
      [done | by apply supplied_once_no_conflict].
  - apply functional_order_independent;
      [done | by apply supplied_once_no_conflict].
  - apply chains_order_independent;
      [done | by apply steps_supplied_once_no_conflict].
  - apply chains_order_independent;
      [done | by apply steps_supplied_once_no_conflict].
Qed.

Lemma C8_order_independent_witness :
  Functional.get_text_calls
    [Functional.CallWithTimeout (PInt 30);
     Functional.CallWithRotation (PInt 90);
     Functional.CallWithOCR None (Some true) None]
  = Ok (<["with_ocr" := PBool true]>
        (<["with_bounding_boxes" := PBool true]>
        (<["rotate_angle" := PInt 90]> (<["timeout" := PInt 30]> ∅))))
  ∧ Chains.get_text_chain
      [Chains.StepTimeout (PInt 30); Chains.StepWithOcr None None None]
    = Ok (<["timeout" := PInt 30]> (<["with_ocr" := PBool true]>
          (<["inline_ocr" := PBool true]> ∅))).
Proof.
  destruct (C8_order_independent
              functional_ocr_calls
              [Functional.CallWithTimeout (PInt 30);
               Functional.CallWithRotation (PInt 90);
               Functional.CallWithOCR None (Some true) None]
              [Chains.StepWithOcr None None None; Chains.StepTimeout (PInt 30)]
              [Chains.StepTimeout (PInt 30); Chains.StepWithOcr None None None]
              (<["with_ocr" := PBool true]>
                (<["with_bounding_boxes" := PBool true]>
                (<["rotate_angle" := PInt 90]> (<["timeout" := PInt 30]> ∅))))
              (<["timeout" := PInt 30]> (<["with_ocr" := PBool true]>
                (<["inline_ocr" := PBool true]> ∅))))
    as [[Hf _] [Hc _]].
  - apply (Permutation_rev functional_ocr_calls).
  - apply (bool_decide_unpack _). vm_compute. exact I.
  - apply perm_swap.
  - apply (bool_decide_unpack _). vm_compute. exact I.
  - split; [apply Hf | apply Hc]; by_eval.
Defined.

(** ** Sub-option headers need the with_ocr header *)

Lemma denote_children_need_ocr (c : Functional.call) (h : dict) :
  valid c → children_need_ocr h → children_need_ocr (denote c h).
Proof.
  intros [o Ho] Hinv k Hk [x Hx]. unfold denote in *. rewrite Ho in Hx |- *.
  pose proof (eval_call_overrides _ _ Ho) as Eo. unfold overrides in Eo.
  rewrite Eo in Hx |- *.
  assert (Hocr : ∀ y, updates o !! "with_ocr" = Some y → y = PBool true).
  { intros y Hy. pose proof (updates_lookup _ _ _ _ Ho Hy) as U.
    destruct c; destruct U as [HU ?]; try discriminate HU; done. }
  apply lookup_union_Some_raw in Hx as [Hu|[_ Hh]].
  - pose proof (updates_lookup _ _ _ _ Ho Hu) as U.
    unfold ocr_children in Hk. rewrite !elem_of_cons, elem_of_nil in Hk.
    destruct c as [|v|v|i b d].
    1-3: destruct U as [-> _]; by intuition discriminate.
    injection Ho as <-. apply lookup_union_Some_l, WithOCR_sets_with_ocr.
  - rewrite lookup_union.
    destruct (updates o !! "with_ocr") as [y|] eqn:Hy.
    + rewrite (Hocr y eq_refl). rewrite (Hinv k Hk); [done|by eexists].
    + rewrite (Hinv k Hk); [done|by eexists].
Qed.

Lemma apply_calls_children_need_ocr (cs : list Functional.call) (h : dict) :
  Forall valid cs → children_need_ocr h → children_need_ocr (apply_calls cs h).
Proof.
  intros Hv. revert h. induction Hv as [|c cs Hc _ IH]; intros h Hinv.
  - exact Hinv.
  - apply IH. by apply denote_children_need_ocr.
Qed.

Lemma functional_children_need_ocr (cs : list Functional.call) (h : dict) :
  Functional.get_text_calls cs = Ok h → children_need_ocr h.
Proof.
  intros [Hv ->]%get_text_calls_Ok.
  apply apply_calls_children_need_ocr; [done|].
  intros k _ [x Hx]. by rewrite lookup_empty in Hx.
Qed.

(** C2, as stated, fails in 2.extend: with with_ocr=False and the four
    sub-options set, the header map holds SkipOCR together with all four
    sub-option headers. *)
Lemma C2_extend_keeps_children_without_ocr :
  Extend.with_ocr extend_children_without_ocr = false
  ∧ ∃ h, Extend.get_text extend_children_without_ocr = Ok h
         ∧ h !! "SkipOCR" = Some (PStr "true")
         ∧ h !! "with_bounding_boxes" = Some (PBool true)
         ∧ h !! "inline_ocr" = Some (PStr "true")
         ∧ h !! "ocr_with_text" = Some (PBool true)
         ∧ h !! "detect_tables" = Some (PBool true).
Proof.
  split; [reflexivity|]. eexists. split; [reflexivity|].
  repeat split; by_eval.
Qed.

(** C2 (amended): for every 3.config config in which with_ocr is false,
    the header map of to_headers contains none of the keys
    with_bounding_boxes, inline_ocr, ocr_with_text, detect_tables,
    whatever the caller supplied for them; and every header map built in
    the functional-options or fluent-builder style that lacks with_ocr
    contains none of them either.  (2.extend applies no such
    suppression.) *)
Theorem C2_children_absent_without_ocr
    (c : Config.TextExtractionConfig) (cs : list Functional.call)
    (ss : list Chains.step) (h g : dict) (k : string) :
  k ∈ ocr_children →
  Config.with_ocr c = false →
  Functional.get_text_calls cs = Ok h → h !! "with_ocr" = None →
  Chains.get_text_chain ss = Ok g → g !! "with_ocr" = None →
  Config.to_headers c !! k = None ∧ h !! k = None ∧ g !! k = None.
Proof.
  intros Hk Hc Hh Hho Hg Hgo. split; [|split].
  - by apply config_children_suppressed.
  - apply functional_children_need_ocr in Hh.
    destruct (h !! k) as [x|] eqn:Hx; [|done].
    rewrite (Hh k Hk) in Hho; [done|by eexists].
  - rewrite chains_as_functional in Hg.
    apply functional_children_need_ocr in Hg.
    destruct (g !! k) as [x|] eqn:Hx; [|done].
    rewrite (Hg k Hk) in Hgo; [done|by eexists].
Qed.

Lemma C2_children_absent_without_ocr_witness :
  Config.to_headers config_children_without_ocr !! "inline_ocr" = None
  ∧ ({[ "timeout" := PInt 5 ]} : dict) !! "inline_ocr" = None
  ∧ ({[ "as_plain_text" := PBool true ]} : dict) !! "inline_ocr" = None.
Proof.
  apply (C2_children_absent_without_ocr config_children_without_ocr
           [Functional.CallWithTimeout (PInt 5)]
           [Chains.StepAsPlainText]).
  - unfold ocr_children. rewrite !elem_of_cons. tauto.
  - reflexivity.
  - by_eval.
  - by_eval.
  - by_eval.
  - by_eval.
Defined.

(** ** Defaults *)

(** C3: 3.config's to_headers, documented as "omitting default values",
    emits as_plain_text:true for the default config (as_plain_text is true
    by default); 2.extend emits as_plain_text, SkipOCR and Accept for its
    defaults. *)
Theorem C3_default_as_plain_text_is_emitted :
  Config.as_plain_text Config.defaults = true
  ∧ Config.to_headers Config.defaults = {[ "as_plain_text" := PBool true ]}
  ∧ Extend.get_text Extend.defaults
    = Ok (<["as_plain_text" := PBool true]>
          (<["SkipOCR" := PStr "true"]>
          (<["Accept" := PStr "text/plain"]> ∅))).
Proof. repeat split; by_eval. Qed.

(** Every other setting of 3.config is left out at its default. *)
Lemma config_omits_other_defaults (c : Config.TextExtractionConfig) :
  (Config.timeout c = None → Config.to_headers c !! "timeout" = None)
  ∧ (Config.rotate_angle c = 0 → Config.to_headers c !! "rotate_angle" = None)
  ∧ (Config.with_ocr c = false → Config.to_headers c !! "with_ocr" = None)
  ∧ (Config.with_bounding_boxes c = false →
     Config.to_headers c !! "with_bounding_boxes" = None)
  ∧ (Config.inline_ocr c = false → Config.to_headers c !! "inline_ocr" = None)
  ∧ (Config.detect_tables c = false →
     Config.to_headers c !! "detect_tables" = None)
  ∧ Config.to_headers c !! "ocr_with_text" = None.
Proof.
  unfold Config.to_headers; cbv zeta. config_flags c.
  repeat split; try intros ->; try destruct ocr; try destruct t; look; done.
Qed.

(** ** Repeated settings *)

(** C9: a repeated timeout and a repeated non-zero rotation keep the later
    value, but a rotation of 0 after a rotation of 90 keeps 90 and raises
    nothing, in the functional and in the fluent style. *)
Theorem C9_rotation_zero_keeps_earlier_angle :
  Functional.get_text_calls
    [Functional.CallWithTimeout (PInt 30); Functional.CallWithTimeout (PInt 10)]
  = Ok {[ "timeout" := PInt 10 ]}
  ∧ Functional.get_text_calls
      [Functional.CallWithRotation (PInt 90);
       Functional.CallWithRotation (PInt 180)]
    = Ok {[ "rotate_angle" := PInt 180 ]}
  ∧ Functional.get_text_calls
      [Functional.CallWithRotation (PInt 90);
       Functional.CallWithRotation (PInt 0)]
    = Ok {[ "rotate_angle" := PInt 90 ]}
  ∧ Chains.get_text_chain
      [Chains.StepTimeout (PInt 30); Chains.StepTimeout (PInt 10)]
    = Ok {[ "timeout" := PInt 10 ]}
  ∧ Chains.get_text_chain
      [Chains.StepRotate (PInt 90); Chains.StepRotate (PInt 180)]
    = Ok {[ "rotate_angle" := PInt 180 ]}
  ∧ Chains.get_text_chain
      [Chains.StepRotate (PInt 90); Chains.StepRotate (PInt 0)]
    = Ok {[ "rotate_angle" := PInt 90 ]}.
Proof. repeat split; by_eval. Qed.

(** ** The default of [inline] *)

(** C10: in the fluent builder, with_ocr() with no arguments writes
    inline_ocr:true next to with_ocr:true, so enabling OCR alone builds
    {with_ocr:true, inline_ocr:true}; in the functional style WithOCR()
    with no arguments writes with_ocr:true only. *)
Theorem C10_with_ocr_inline_default :
  Chains.get_text_chain [Chains.StepWithOcr None None None]
  = Ok (<["with_ocr" := PBool true]> (<["inline_ocr" := PBool true]> ∅))
  ∧ Functional.get_text_calls [Functional.CallWithOCR None None None]
    = Ok {[ "with_ocr" := PBool true ]}
  ∧ (∀ self : Chains.Options,
       Chains.build (Chains.with_ocr self None None None)
       = <["inline_ocr" := PBool true]>
           (<["with_ocr" := PBool true]> (Chains.build self)))
  ∧ (∀ opt : dict,
       Functional.WithOCR None None None opt
       = <["with_ocr" := PBool true]> opt).
Proof.
  split; [by_eval|]. split; [by_eval|]. split; reflexivity.
Qed.

(** ** Validation of timeout and rotation *)

Lemma py_eq_int_inj (v : pyval) (n n' : Z) :
  py_eq_int v n = true → py_eq_int v n' = true → n = n'.
Proof.
  destruct v as [|b|z|[m e| |]|s]; cbn; try discriminate.
  - intros ?%Z.eqb_eq ?%Z.eqb_eq. congruence.
  - intros ?%Z.eqb_eq ?%Z.eqb_eq. congruence.
  - destruct (Z.leb_spec 0 e); intros ?%Z.eqb_eq ?%Z.eqb_eq; [congruence|].
    assert (0 < 2 ^ (- e)) by (apply Z.pow_pos_nonneg; lia).
    apply (Z.mul_reg_r _ _ (2 ^ (- e))); [lia | congruence].
Qed.

Lemma py_in_angles_false (v : pyval) :
  (∀ n, n ∈ angles → py_eq_int v n = false) → py_in v angles = false.
Proof.
  intros H. unfold py_in, angles. cbn [existsb].
  rewrite !H; [done|unfold angles; rewrite !elem_of_cons; tauto..].
Qed.

Lemma py_in_angles_true (v : pyval) (n : Z) :
  n ∈ angles → py_eq_int v n = true → py_in v angles = true.
Proof.
  intros Hn Hv. unfold py_in. apply existsb_exists. exists n.
  split; [by apply list_elem_of_In | done].
Qed.

Lemma as_int_not_None (v : pyval) (n : Z) :
  as_int v = Some n → is_None v = false.
Proof. by destruct v. Qed.

Lemma extend_rejects_timeout (a : Extend.kwargs) :
  Extend.timeout a ≠ PNone →
  (∀ n, as_int (Extend.timeout a) = Some n → n ≤ 0) →
  raises (Extend.get_text a).
Proof.
  intros Hnone Hbad. unfold Extend.get_text.
  assert (is_None (Extend.timeout a) = false) as -> by by destruct (Extend.timeout a).
  cbn [negb]. destruct (as_int (Extend.timeout a)) as [n|]; [|exact I].
  destruct (Z.leb_spec n 0); [exact I|]. specialize (Hbad n eq_refl). lia.
Qed.

Lemma extend_rejects_rotation (a : Extend.kwargs) :
  py_in (Extend.rotate_angle a) angles = false → raises (Extend.get_text a).
Proof.
  intros Hrot. unfold Extend.get_text. rewrite Hrot. cbn [negb].
  destruct (negb (is_None (Extend.timeout a))); [|exact I].
  destruct (as_int (Extend.timeout a)) as [n|]; [|exact I].
  destruct (n <=? 0); exact I.
Qed.

Lemma extend_accepts (a : Extend.kwargs) :
  timeout_accepted (Extend.timeout a) →
  py_in (Extend.rotate_angle a) angles = true →
  ∃ h, Extend.get_text a = Ok h
       ∧ h !! "timeout"
         = (if is_None (Extend.timeout a) then None
            else Some (Extend.timeout a))
       ∧ h !! "rotate_angle"
         = (if py_eq_int (Extend.rotate_angle a) 0 then None
            else Some (Extend.rotate_angle a)).
Proof.
  intros Ht Hr. unfold Extend.get_text. rewrite Hr. cbn [negb].
  destruct Ht as [->|(n & Hn & Hpos)].
  - cbn [is_None negb mbind result_bind].
    destruct (py_eq_int (Extend.rotate_angle a) 0); cbn [negb];
      eexists; (split; [reflexivity|]); look; done.
  - rewrite (as_int_not_None _ _ Hn), Hn. cbn [negb].
    destruct (Z.leb_spec n 0); [lia|]. cbn [mbind result_bind].
    destruct (py_eq_int (Extend.rotate_angle a) 0); cbn [negb];
      eexists; (split; [reflexivity|]); look; done.
Qed.

Lemma validate_rotate_angle_Ok (value : Z) :
  value ∈ angles → Config.validate_rotate_angle value = Ok value.
Proof.
  intros H. unfold Config.validate_rotate_angle.
  replace (existsb (Z.eqb value) angles) with true; [done|].
  symmetry. apply existsb_exists. exists value.
  split; [by apply list_elem_of_In | apply Z.eqb_refl].
Qed.

Lemma validate_rotate_angle_raises (value : Z) :
  value ∉ angles → raises (Config.validate_rotate_angle value).
Proof.
  intros H. unfold Config.validate_rotate_angle.
  destruct (existsb (Z.eqb value) angles) eqn:E; [|exact I].
  apply existsb_exists in E as (n & Hn%list_elem_of_In & ->%Z.eqb_eq). done.
Qed.

Lemma config_new_Ok (f : Config.TextExtractionConfig) :
  (∀ n, Config.timeout f = Some n → 0 < n) →
  Config.rotate_angle f ∈ angles →
  Config.new f = Ok f.
Proof.
  intros Ht Hr. unfold Config.new.
  rewrite (validate_rotate_angle_Ok _ Hr). unfold Config.validate_timeout.
  destruct f as [pt ocr [t|] bb il owt r dt]; cbn in *; [|done].
  specialize (Ht t eq_refl). destruct (Z.leb_spec t 0); [lia|done].
Qed.

Lemma config_new_rejects_timeout (f : Config.TextExtractionConfig) (n : Z) :
  Config.timeout f = Some n → n ≤ 0 → raises (Config.new f).
Proof.
  intros Ht Hn. unfold Config.new, Config.validate_timeout. rewrite Ht.
  destruct (Z.leb_spec n 0); [|lia].
  by destruct (Config.validate_rotate_angle _).
Qed.

Lemma config_new_rejects_rotation (f : Config.TextExtractionConfig) :
  Config.rotate_angle f ∉ angles → raises (Config.new f).
Proof.
  intros Hr%validate_rotate_angle_raises. unfold Config.new.
  destruct (Config.validate_rotate_angle _); [done|].
  by destruct (Config.validate_timeout _).
Qed.

Lemma config_timeout_header (c : Config.TextExtractionConfig) :
  Config.to_headers c !! "timeout" = PInt <$> Config.timeout c.
Proof.
  unfold Config.to_headers; cbv zeta.
  destruct (Config.with_ocr c), (Config.timeout c); look; done.
Qed.

Lemma config_rotate_header (c : Config.TextExtractionConfig) :
  Config.to_headers c !! "rotate_angle"
  = if Config.rotate_angle c =? 0 then None
    else Some (PInt (Config.rotate_angle c)).
Proof.
  unfold Config.to_headers; cbv zeta.
  destruct (Config.with_ocr c), (Config.timeout c),
    (Config.rotate_angle c =? 0); cbn [negb]; look; done.
Qed.

Lemma construct_rejects_timeout (a : Config.kwargs) :
  (Config.to_optional_int (Config.kw_timeout a) = Config.Rejected
   ∨ ∃ n, Config.to_optional_int (Config.kw_timeout a)
          = Config.Converted (Some n) ∧ n ≤ 0) →
  Config.construct a = Config.Rejected.
Proof.
  intros H. unfold Config.construct.
  assert (Config.checked (Config.to_optional_int (Config.kw_timeout a))
            Config.validate_timeout = Config.Rejected) as ->.
  { destruct H as [->|(n & -> & Hn)]; [reflexivity|].
    cbn [Config.checked Config.validate_timeout].
    by destruct (Z.leb_spec n 0); [|lia]. }
  by destruct (Config.checked (Config.to_int (Config.kw_rotate_angle a))
                 Config.validate_rotate_angle).
Qed.

Lemma construct_accepts (a : Config.kwargs) (t : option Z) (r : Z) :
  Config.to_optional_int (Config.kw_timeout a) = Config.Converted t →
  (∀ n, t = Some n → 0 < n) →
  Config.to_int (Config.kw_rotate_angle a) = Config.Converted r →
  r ∈ angles →
  ∃ c, Config.construct a = Config.Converted c
       ∧ Config.timeout c = t ∧ Config.rotate_angle c = r.
Proof.
  intros Ht Hpos Hr Hin. unfold Config.construct. rewrite Ht, Hr.
  cbn [Config.checked]. rewrite (validate_rotate_angle_Ok r Hin).
  assert (Config.validate_timeout t = Ok t) as ->.
  { unfold Config.validate_timeout. destruct t as [n|]; [|done].
    specialize (Hpos n eq_refl). by destruct (Z.leb_spec n 0); [lia|]. }
  eexists. split; [reflexivity|]. split; reflexivity.
Qed.

(** C6, as stated, fails in 3.config: timeout=30.0 is not an integer (the
    other styles raise TypeError for it), yet the constructor accepts it
    as 30 and to_headers writes timeout:30. *)
Lemma C6_config_accepts_float_timeout :
  as_int (PFloat (FFinite 15 1)) = None
  ∧ Functional.WithTimeout (PFloat (FFinite 15 1))
    = Raise (TypeError "Timeout must be an integer")
  ∧ ∃ c, Config.construct config_float_timeout = Config.Converted c
         ∧ Config.to_headers c !! "timeout" = Some (PInt 30).
Proof.
  split; [reflexivity|]. split; [reflexivity|].
  eexists. split; [reflexivity|]. by_eval.
Qed.

(** C6 (amended): in 2.extend, 4.functional and 5.chains a timeout that is
    not an integer, or is an integer ≤ 0, makes building fail (in 2.extend
    unless it is None, which means no timeout), and a positive integer
    timeout is accepted and bound to the timeout header unchanged.  In
    3.config the timeout is first converted to Optional[int] (a float
    without fractional part such as 30.0 is accepted as 30); building fails
    when the conversion is refused or the converted integer is ≤ 0, and a
    timeout converted to a positive integer n is accepted and the header
    map binds timeout to n. *)
Theorem C6_timeout_validation (v : pyval) :
  ((∀ n, as_int v = Some n → n ≤ 0) →
     (∀ a, Extend.timeout a = v → v ≠ PNone → raises (Extend.get_text a))
     ∧ raises (Functional.WithTimeout v)
     ∧ raises (Functional.get_text_calls [Functional.CallWithTimeout v])
     ∧ (∀ self, raises (Chains.timeout self v)))
  ∧ (∀ n, as_int v = Some n → 0 < n →
     (∀ a, Extend.timeout a = v →
           py_in (Extend.rotate_angle a) angles = true →
           ∃ h, Extend.get_text a = Ok h ∧ h !! "timeout" = Some v)
     ∧ (∃ o, Functional.WithTimeout v = Ok o
             ∧ ∀ opt, o opt !! "timeout" = Some v)
     ∧ Functional.get_text_calls [Functional.CallWithTimeout v]
       = Ok {[ "timeout" := v ]}
     ∧ (∀ self, ∃ self', Chains.timeout self v = Ok self'
                         ∧ Chains.build self' !! "timeout" = Some v))
  ∧ (∀ a, Config.kw_timeout a = v →
          (Config.to_optional_int v = Config.Rejected
           ∨ ∃ n, Config.to_optional_int v = Config.Converted (Some n)
                  ∧ n ≤ 0) →
          Config.construct a = Config.Rejected)
  ∧ (∀ a n r, Config.kw_timeout a = v →
              Config.to_optional_int v = Config.Converted (Some n) → 0 < n →
              Config.to_int (Config.kw_rotate_angle a) = Config.Converted r →
              r ∈ angles →
              ∃ c, Config.construct a = Config.Converted c
                   ∧ Config.to_headers c !! "timeout" = Some (PInt n)).
Proof.
  split; [|split; [|split]].
  - intros Hbad.
    assert (Hw : raises (Functional.WithTimeout v)).
    { unfold Functional.WithTimeout. destruct (as_int v) as [n|]; [|exact I].
      destruct (Z.leb_spec n 0); [exact I|]. specialize (Hbad n eq_refl). lia. }
    split; [|split; [|split]].
    + intros a <- Hnone. by apply extend_rejects_timeout.
    + exact Hw.
    + unfold Functional.get_text_calls. cbn [Functional.eval_calls
        Functional.eval_call]. by destruct (Functional.WithTimeout v).
    + intros self. unfold Chains.timeout. unfold Functional.WithTimeout in Hw.
      destruct (as_int v) as [n|]; [|exact I]. by destruct (n <=? 0).
  - intros n Hn Hpos.
    assert (Hw : Functional.WithTimeout v
                 = Ok (λ opt : dict, <["timeout" := v]> opt)).
    { unfold Functional.WithTimeout. rewrite Hn.
      destruct (Z.leb_spec n 0); [lia|done]. }
    split; [|split; [|split]].
    + intros a <- Hr.
      destruct (extend_accepts a) as (h & Hh & Ht & _); [right; eauto|done|].
      exists h. split; [done|]. by rewrite Ht, (as_int_not_None _ _ Hn).
    + eexists. split; [exact Hw|]. intros opt. apply lookup_insert_eq.
    + unfold Functional.get_text_calls. cbn [Functional.eval_calls
        Functional.eval_call]. rewrite Hw. reflexivity.
    + intros self. unfold Chains.timeout. rewrite Hn.
      destruct (Z.leb_spec n 0); [lia|]. eexists. split; [reflexivity|].
      apply lookup_insert_eq.
  - intros a <- H. by apply construct_rejects_timeout.
  - intros a n r <- Ht Hpos Hr Hin.
    destruct (construct_accepts a (Some n) r Ht) as (c & Hc & Hct & _);
      [by intros ? [= <-] | done | done |].
    exists c. split; [done|]. by rewrite config_timeout_header, Hct.
Qed.

Lemma C6_timeout_validation_witness :
  raises (Functional.WithTimeout (PStr "30"))
  ∧ raises (Functional.WithTimeout (PInt 0))
  ∧ Functional.get_text_calls [Functional.CallWithTimeout (PInt 30)]
    = Ok {[ "timeout" := PInt 30 ]}
  ∧ Config.construct
      {| Config.kw_as_plain_text := true; Config.kw_with_ocr := false;
         Config.kw_timeout := PFloat (FFinite 5 (-1));
         Config.kw_with_bounding_boxes := false;
         Config.kw_inline_ocr := false; Config.kw_ocr_with_text := false;
         Config.kw_rotate_angle := PInt 0;
         Config.kw_detect_tables := false |}
    = Config.Rejected
  ∧ ∃ c, Config.construct config_float_timeout = Config.Converted c
         ∧ Config.to_headers c !! "timeout" = Some (PInt 30).
Proof.
  destruct (C6_timeout_validation (PStr "30")) as (Hstr & _).
  destruct (C6_timeout_validation (PInt 0)) as (Hzero & _).
  destruct (C6_timeout_validation (PInt 30)) as (_ & Hpos & _).
  destruct (C6_timeout_validation (PFloat (FFinite 5 (-1))))
    as (_ & _ & Hfrac & _).
  destruct (C6_timeout_validation (PFloat (FFinite 15 1)))
    as (_ & _ & _ & Hfloat).
  split; [|split; [|split; [|split]]].
  - destruct Hstr as (_ & H & _); [intros n Hn; discriminate Hn | exact H].
  - destruct Hzero as (_ & H & _); [intros n [= <-]; lia | exact H].
  - destruct (Hpos 30 eq_refl) as (_ & _ & H & _); [lia | exact H].
  - apply Hfrac; [reflexivity | left; reflexivity].
  - apply (Hfloat config_float_timeout 30 0); [reflexivity..| lia | reflexivity |].
    unfold angles. rewrite !elem_of_cons. tauto.
Defined.

(** C7: a rotation that equals none of 0, 90, 180, 270 makes building fail
    in every style (nothing is clamped); a rotation equal to 0 is accepted
    and writes no rotate_angle header; a rotation equal to 90, 180 or 270 is
    accepted and the header map binds rotate_angle to exactly that value. *)
Theorem C7_rotation_validation (v : pyval) :
  ((∀ n, n ∈ angles → py_eq_int v n = false) →
     (∀ a, Extend.rotate_angle a = v → raises (Extend.get_text a))
     ∧ raises (Functional.WithRotation v)
     ∧ raises (Functional.get_text_calls [Functional.CallWithRotation v])
     ∧ (∀ self, raises (Chains.rotate self v)))
  ∧ (py_eq_int v 0 = true →
     (∀ a h, Extend.rotate_angle a = v → Extend.get_text a = Ok h →
             h !! "rotate_angle" = None)
     ∧ (∃ o, Functional.WithRotation v = Ok o ∧ ∀ opt, o opt = opt)
     ∧ Functional.get_text_calls [Functional.CallWithRotation v] = Ok ∅
     ∧ (∀ self, Chains.rotate self v = Ok self))
  ∧ (∀ n, n ∈ [90; 180; 270] → py_eq_int v n = true →
     (∀ a, Extend.rotate_angle a = v → timeout_accepted (Extend.timeout a) →
           ∃ h, Extend.get_text a = Ok h ∧ h !! "rotate_angle" = Some v)
     ∧ (∃ o, Functional.WithRotation v = Ok o
             ∧ ∀ opt, o opt !! "rotate_angle" = Some v)
     ∧ Functional.get_text_calls [Functional.CallWithRotation v]
       = Ok {[ "rotate_angle" := v ]}
     ∧ (∀ self, ∃ self', Chains.rotate self v = Ok self'
                         ∧ Chains.build self' !! "rotate_angle" = Some v))
  ∧ (∀ f, Config.rotate_angle f ∉ angles → raises (Config.new f))
  ∧ (∀ c, Config.rotate_angle c = 0 →
          Config.to_headers c !! "rotate_angle" = None)
  ∧ (∀ f n, n ∈ [90; 180; 270] → Config.rotate_angle f = n →
            (∀ t, Config.timeout f = Some t → 0 < t) →
            ∃ c, Config.new f = Ok c
                 ∧ Config.to_headers c !! "rotate_angle" = Some (PInt n)).
Proof.
  split; [|split; [|split; [|split; [|split]]]].
  - intros Hout%py_in_angles_false.
    assert (Hw : raises (Functional.WithRotation v)).
    { unfold Functional.WithRotation. by rewrite Hout. }
    split; [|split; [|split]].
    + intros a <-. by apply extend_rejects_rotation.
    + exact Hw.
    + unfold Functional.get_text_calls. cbn [Functional.eval_calls
        Functional.eval_call]. by destruct (Functional.WithRotation v).
    + intros self. unfold Chains.rotate. by rewrite Hout.
  - intros Hzero.
    assert (Hin : py_in v angles = true).
    { apply (py_in_angles_true v 0); [|done].
      unfold angles. rewrite !elem_of_cons. tauto. }
    split; [|split; [|split]].
    + intros a h <- Hh. extend_ok Hh; look; try done.
      all: congruence.
    + unfold Functional.WithRotation. rewrite Hin. cbn [negb].
      eexists. split; [reflexivity|]. intros opt. by rewrite Hzero.
    + unfold Functional.get_text_calls. cbn [Functional.eval_calls
        Functional.eval_call]. unfold Functional.WithRotation.
      rewrite Hin. cbn [negb mbind result_bind]. unfold Functional.get_text.
      cbn [fold_left]. by rewrite Hzero.
    + intros self. unfold Chains.rotate. by rewrite Hin, Hzero.
  - intros n Hn Hv.
    assert (Hin : py_in v angles = true).
    { apply (py_in_angles_true v n); [|done].
      unfold angles. rewrite !elem_of_cons in *. tauto. }
    assert (Hnz : py_eq_int v 0 = false).
    { destruct (py_eq_int v 0) eqn:E; [|done].
      pose proof (py_eq_int_inj _ _ _ E Hv) as <-.
      rewrite !elem_of_cons, elem_of_nil in Hn. lia. }
    split; [|split; [|split]].
    + intros a <- Ht.
      destruct (extend_accepts a Ht Hin) as (h & Hh & _ & Hr).
      exists h. split; [done|]. by rewrite Hr, Hnz.
    + unfold Functional.WithRotation. rewrite Hin. cbn [negb].
      eexists. split; [reflexivity|]. intros opt. rewrite Hnz. cbn [negb].
      apply lookup_insert_eq.
    + unfold Functional.get_text_calls. cbn [Functional.eval_calls
        Functional.eval_call]. unfold Functional.WithRotation.
      rewrite Hin. cbn [negb mbind result_bind]. unfold Functional.get_text.
      cbn [fold_left]. by rewrite Hnz.
    + intros self. unfold Chains.rotate. rewrite Hin, Hnz. cbn [negb].
      eexists. split; [reflexivity|]. apply lookup_insert_eq.
  - apply config_new_rejects_rotation.
  - intros c Hc. by rewrite config_rotate_header, Hc.
  - intros f n Hn Hf Ht. exists f. split.
    + apply config_new_Ok; [done|]. rewrite Hf. unfold angles.
      rewrite !elem_of_cons in *. tauto.
    + rewrite config_rotate_header, Hf.
      rewrite !elem_of_cons, elem_of_nil in Hn.
      destruct (Z.eqb_spec n 0); [lia|done].
Qed.

Lemma C7_rotation_validation_witness :
  raises (Functional.WithRotation (PInt 45))
  ∧ Functional.get_text_calls [Functional.CallWithRotation (PInt 0)] = Ok ∅
  ∧ Functional.get_text_calls [Functional.CallWithRotation (PInt 270)]
    = Ok {[ "rotate_angle" := PInt 270 ]}
  ∧ raises (Config.new
      {| Config.as_plain_text := true; Config.with_ocr := false;
         Config.timeout := None; Config.with_bounding_boxes := false;
         Config.inline_ocr := false; Config.ocr_with_text := false;
         Config.rotate_angle := 45; Config.detect_tables := false |}).
Proof.
  destruct (C7_rotation_validation (PInt 45)) as (Hout & _).
  destruct (C7_rotation_validation (PInt 0)) as (_ & Hzero & _).
  destruct (C7_rotation_validation (PInt 270)) as (_ & _ & Hpos & Hcfg & _).
  split; [|split; [|split]].
  - destruct Hout as (_ & H & _); [|exact H].
    intros n Hn. unfold angles in Hn.
    rewrite !elem_of_cons, elem_of_nil in Hn.
    destruct Hn as [->|[->|[->|[->|[]]]]]; reflexivity.
  - destruct Hzero as (_ & _ & H & _); [reflexivity | exact H].
  - destruct (Hpos 270) as (_ & _ & H & _); [|reflexivity|exact H].
    rewrite !elem_of_cons. tauto.
  - apply Hcfg. cbn. unfold angles.
    rewrite !elem_of_cons, elem_of_nil. lia.
Defined.

(** * Properties of the single styles *)

(** ** [1.simple.py] and [2.extend.py] *)

(** X1: called with only the two settings of 1.simple, 2.extend never
    raises and builds the headers of 1.simple, plus as_plain_text:true when
    as_plain_text is set. *)
Theorem X1_extend_extends_simple (s : Simple.kwargs) :
  Extend.get_text (extend_of_simple s)
  = Ok (if Simple.as_plain_text s
        then <["as_plain_text" := PBool true]> (Simple.get_text s)
        else Simple.get_text s).
Proof. destruct s as [[] []]; by_eval. Qed.

(** X2: 2.extend checks the timeout before the rotation, and each failure
    has its own exception: a timeout that is neither None nor an integer
    raises TypeError, an integer timeout ≤ 0 raises ValueError "Timeout must
    be positive", both whatever the rotation is; a bad rotation raises its
    ValueError only when the timeout is accepted. *)
Theorem X2_extend_errors (a : Extend.kwargs) :
  (Extend.timeout a ≠ PNone → as_int (Extend.timeout a) = None →
   Extend.get_text a = Raise (TypeError "Timeout must be an integer"))
  ∧ (∀ n, as_int (Extend.timeout a) = Some n → n ≤ 0 →
     Extend.get_text a = Raise (ValueError "Timeout must be positive"))
  ∧ (timeout_accepted (Extend.timeout a) →
     py_in (Extend.rotate_angle a) angles = false →
     Extend.get_text a
     = Raise (ValueError "rotate_angle must be 0, 90, 180, or 270")).
Proof.
  unfold Extend.get_text. split; [|split].
  - intros Hn Hi. rewrite Hi.
    by destruct (Extend.timeout a).
  - intros n Hi Hle. rewrite Hi, (as_int_not_None _ _ Hi). cbn [negb].
    by destruct (Z.leb_spec n 0); [|lia].
  - intros [->|(n & Hi & Hpos)] Hr; rewrite Hr.
    + reflexivity.
    + rewrite Hi, (as_int_not_None _ _ Hi). cbn [negb].
      by destruct (Z.leb_spec n 0); [lia|].
Qed.

Lemma X2_extend_errors_witness :
  Extend.get_text
    {| Extend.as_plain_text := true; Extend.with_ocr := false;
       Extend.timeout := PStr "30"; Extend.with_bounding_boxes := false;
       Extend.inline_ocr := false; Extend.ocr_with_text := false;
       Extend.rotate_angle := PInt 45; Extend.detect_tables := false |}
  = Raise (TypeError "Timeout must be an integer")
  ∧ Extend.get_text
      {| Extend.as_plain_text := true; Extend.with_ocr := false;
         Extend.timeout := PBool false; Extend.with_bounding_boxes := false;
         Extend.inline_ocr := false; Extend.ocr_with_text := false;
         Extend.rotate_angle := PInt 45; Extend.detect_tables := false |}
    = Raise (ValueError "Timeout must be positive")
  ∧ Extend.get_text
      {| Extend.as_plain_text := true; Extend.with_ocr := false;
         Extend.timeout := PInt 30; Extend.with_bounding_boxes := false;
         Extend.inline_ocr := false; Extend.ocr_with_text := false;
         Extend.rotate_angle := PInt 45; Extend.detect_tables := false |}
    = Raise (ValueError "rotate_angle must be 0, 90, 180, or 270").
Proof.
  split; [|split].
  - match goal with |- Extend.get_text ?a = _ =>
      destruct (X2_extend_errors a) as (H & _ & _) end.
    apply H; [discriminate | reflexivity].
  - match goal with |- Extend.get_text ?a = _ =>
      destruct (X2_extend_errors a) as (_ & H & _) end.
    apply (H 0); [reflexivity | lia].
  - match goal with |- Extend.get_text ?a = _ =>
      destruct (X2_extend_errors a) as (_ & _ & H) end.
    apply H; [|reflexivity].
    right. exists 30. split; [reflexivity | lia].
Defined.

(** X3: 2.extend builds a header map exactly when the timeout is None or a
    positive integer and the rotation equals one of 0, 90, 180, 270; no
    other argument can make it raise. *)
Theorem X3_extend_succeeds_iff (a : Extend.kwargs) :
  (∃ h, Extend.get_text a = Ok h)
  ↔ timeout_accepted (Extend.timeout a)
    ∧ py_in (Extend.rotate_angle a) angles = true.
Proof.
  split.
  - intros [h H]. unfold Extend.get_text in H.
    destruct (py_in (Extend.rotate_angle a) angles) eqn:Hr.
    + split; [|done].
      destruct (Extend.timeout a) as [|b|z|f|s] eqn:Ht;
        cbn [negb is_None as_int mbind result_bind] in H.
      * by left.
      * right. destruct (Z.leb_spec (Z.b2z b) 0); [discriminate|]. eauto.
      * right. destruct (Z.leb_spec z 0); [discriminate|]. eauto.
      * discriminate.
      * discriminate.
    + exfalso. cbn [negb] in H.
      destruct (negb (is_None (Extend.timeout a)));
        [destruct (as_int (Extend.timeout a)) as [n|];
           [destruct (n <=? 0)|]|]; discriminate.
  - intros [Ht Hr]. destruct (extend_accepts a Ht Hr) as (h & Hh & _).
    by exists h.
Qed.

(** X4: when 2.extend succeeds, every flag header is written exactly when
    its flag is set, whatever with_ocr is: detect_tables,
    with_bounding_boxes and ocr_with_text as True, inline_ocr as the string
    "true"; as_plain_text writes both as_plain_text:True and
    Accept:"text/plain". *)
Theorem X4_extend_flag_headers (a : Extend.kwargs) (h : dict) :
  Extend.get_text a = Ok h →
  h !! "detect_tables"
  = (if Extend.detect_tables a then Some (PBool true) else None)
  ∧ h !! "with_bounding_boxes"
    = (if Extend.with_bounding_boxes a then Some (PBool true) else None)
  ∧ h !! "ocr_with_text"
    = (if Extend.ocr_with_text a then Some (PBool true) else None)
  ∧ h !! "inline_ocr"
    = (if Extend.inline_ocr a then Some (PStr "true") else None)
  ∧ h !! "as_plain_text"
    = (if Extend.as_plain_text a then Some (PBool true) else None)
  ∧ h !! "Accept"
    = (if Extend.as_plain_text a then Some (PStr "text/plain") else None).
Proof.
  intros H. extend_ok H; repeat split; look; reflexivity.
Qed.

Lemma X4_extend_flag_headers_witness :
  (<["SkipOCR" := PStr "true"]> (<["inline_ocr" := PStr "true"]> ∅) : dict)
    !! "inline_ocr" = Some (PStr "true").
Proof.
  apply (X4_extend_flag_headers
           {| Extend.as_plain_text := false; Extend.with_ocr := false;
              Extend.timeout := PNone; Extend.with_bounding_boxes := false;
              Extend.inline_ocr := true; Extend.ocr_with_text := false;
              Extend.rotate_angle := PInt 0;
              Extend.detect_tables := false |}).
  by_eval.
Defined.

(** X5: a header map built by 2.extend has no key outside timeout,
    rotate_angle, detect_tables, with_bounding_boxes, ocr_with_text,
    as_plain_text, SkipOCR, inline_ocr, Accept. *)
Theorem X5_extend_keys (a : Extend.kwargs) (h : dict) (k : string) (x : pyval) :
  Extend.get_text a = Ok h → h !! k = Some x → k ∈ extend_keys.
Proof.
  intros H Hk. destruct (decide (k ∈ extend_keys)) as [|Hout]; [done|].
  exfalso. unfold extend_keys in Hout.
  rewrite !not_elem_of_cons in Hout. destruct_and!.
  extend_ok H; revert Hk; look; done.
Qed.

Lemma X5_extend_keys_witness : "SkipOCR" ∈ extend_keys.
Proof.
  apply (X5_extend_keys Extend.defaults
           (<["as_plain_text" := PBool true]> spec_default_headers)
           "SkipOCR" (PStr "true")); by_eval.
Defined.

(** ** [3.config.py] *)

Ltac config_fields c pt ocr t bb il owt r dt :=
  destruct c as [pt ocr t bb il owt r dt];
  cbn [Config.as_plain_text Config.with_ocr Config.timeout
       Config.with_bounding_boxes Config.inline_ocr Config.ocr_with_text
       Config.rotate_angle Config.detect_tables] in *.

Lemma config_flag_headers (c : Config.TextExtractionConfig) :
  Config.to_headers c !! "with_ocr"
  = (if Config.with_ocr c then Some (PBool true) else None)
  ∧ Config.to_headers c !! "as_plain_text"
    = (if Config.as_plain_text c then Some (PBool true) else None)
  ∧ Config.to_headers c !! "with_bounding_boxes"
    = (if Config.with_ocr c && Config.with_bounding_boxes c
       then Some (PBool true) else None)
  ∧ Config.to_headers c !! "inline_ocr"
    = (if Config.with_ocr c && Config.inline_ocr c
       then Some (PBool true) else None)
  ∧ Config.to_headers c !! "detect_tables"
    = (if Config.with_ocr c && Config.detect_tables c
       then Some (PBool true) else None).
Proof.
  unfold Config.to_headers; cbv zeta.
  destruct (Config.with_ocr c), (Config.timeout c); cbn [andb];
    repeat split; look; reflexivity.
Qed.

Lemma config_new_Ok_iff (f c : Config.TextExtractionConfig) :
  Config.new f = Ok c
  ↔ c = f
    ∧ (∀ n, Config.timeout f = Some n → 0 < n)
    ∧ Config.rotate_angle f ∈ angles.
Proof.
  split.
  - intros H.
    assert (Ht : ∀ n, Config.timeout f = Some n → 0 < n).
    { intros n Hn. destruct (Z.lt_ge_cases 0 n) as [|Hle]; [done|].
      pose proof (config_new_rejects_timeout f n Hn) as Hr.
      rewrite H in Hr. destruct Hr. lia. }
    assert (Hr : Config.rotate_angle f ∈ angles).
    { destruct (decide (Config.rotate_angle f ∈ angles)) as [|Hout]; [done|].
      pose proof (config_new_rejects_rotation f Hout) as Hr.
      rewrite H in Hr. destruct Hr. }
    rewrite (config_new_Ok f Ht Hr) in H. injection H as <-. done.
  - intros (-> & Ht & Hr). by apply config_new_Ok.
Qed.

(** X7: the ocr_with_text field never reaches the headers of 3.config:
    to_headers writes no ocr_with_text key and returns the same map whatever
    the field holds. *)
Theorem X7_config_ignores_ocr_with_text
    (c : Config.TextExtractionConfig) (b : bool) :
  Config.to_headers (set_ocr_with_text b c) = Config.to_headers c
  ∧ Config.to_headers c !! "ocr_with_text" = None.
Proof.
  split; [reflexivity|]. apply config_omits_other_defaults.
Qed.

(** X8: in 3.config each sub-option header (with_bounding_boxes,
    inline_ocr, detect_tables) is present, as True, exactly when with_ocr
    and the sub-option are both true; with_ocr and as_plain_text are
    present, as True, exactly when set. *)
Theorem X8_config_flag_headers (c : Config.TextExtractionConfig) :
  (Config.to_headers c !! "with_bounding_boxes" = Some (PBool true)
   ↔ Config.with_ocr c = true ∧ Config.with_bounding_boxes c = true)
  ∧ (Config.to_headers c !! "inline_ocr" = Some (PBool true)
     ↔ Config.with_ocr c = true ∧ Config.inline_ocr c = true)
  ∧ (Config.to_headers c !! "detect_tables" = Some (PBool true)
     ↔ Config.with_ocr c = true ∧ Config.detect_tables c = true)
  ∧ (Config.to_headers c !! "as_plain_text" = Some (PBool true)
     ↔ Config.as_plain_text c = true).
Proof.
  destruct (config_flag_headers c) as (_ & -> & -> & -> & ->).
  destruct (Config.with_ocr c), (Config.with_bounding_boxes c),
    (Config.inline_ocr c), (Config.detect_tables c),
    (Config.as_plain_text c); cbn [andb]; intuition congruence.
Qed.

(** X9: a header map of 3.config has no key outside timeout, rotate_angle,
    with_ocr, with_bounding_boxes, inline_ocr, detect_tables,
    as_plain_text; in particular neither Accept nor SkipOCR. *)
Theorem X9_config_keys
    (c : Config.TextExtractionConfig) (k : string) (x : pyval) :
  Config.to_headers c !! k = Some x → k ∈ config_keys.
Proof.
  intros Hk. destruct (decide (k ∈ config_keys)) as [|Hout]; [done|].
  exfalso. unfold config_keys in Hout.
  rewrite !not_elem_of_cons in Hout. destruct_and!.
  revert Hk. unfold Config.to_headers; cbv zeta.
  destruct (Config.with_ocr c), (Config.timeout c); look; done.
Qed.

Lemma X9_config_keys_witness : "as_plain_text" ∈ config_keys.
Proof.
  apply (X9_config_keys Config.defaults "as_plain_text" (PBool true)).
  by_eval.
Defined.

(** X10: two configs serialize to the same header map exactly when they
    agree on as_plain_text, with_ocr, timeout and rotate_angle and, if
    with_ocr is on, on with_bounding_boxes, inline_ocr and detect_tables:
    the headers determine every setting that is not suppressed. *)
Theorem X10_config_headers_determine_settings
    (c1 c2 : Config.TextExtractionConfig) :
  Config.to_headers c1 = Config.to_headers c2 ↔ same_effective_settings c1 c2.
Proof.
  unfold same_effective_settings. split.
  - intros H.
    pose proof (f_equal (.!! "timeout") H) as Ht.
    pose proof (f_equal (.!! "rotate_angle") H) as Hr.
    pose proof (f_equal (.!! "with_ocr") H) as Ho.
    pose proof (f_equal (.!! "as_plain_text") H) as Hp.
    pose proof (f_equal (.!! "with_bounding_boxes") H) as Hb.
    pose proof (f_equal (.!! "inline_ocr") H) as Hi.
    pose proof (f_equal (.!! "detect_tables") H) as Hd.
    cbv beta in *.
    rewrite !config_timeout_header in Ht.
    rewrite !config_rotate_header in Hr.
    destruct (config_flag_headers c1) as (E1 & E2 & E3 & E4 & E5).
    destruct (config_flag_headers c2) as (F1 & F2 & F3 & F4 & F5).
    rewrite E1, F1 in Ho. rewrite E2, F2 in Hp. rewrite E3, F3 in Hb.
    rewrite E4, F4 in Hi. rewrite E5, F5 in Hd.
    clear H E1 E2 E3 E4 E5 F1 F2 F3 F4 F5.
    config_fields c1 pt ocr t bb il owt r dt.
    config_fields c2 pt0 ocr0 t0 bb0 il0 owt0 r0 dt0.
    repeat split.
    + by destruct pt, pt0.
    + by destruct ocr, ocr0.
    + destruct t, t0; by simplify_eq/=.
    + revert Hr. destruct (Z.eqb_spec r 0), (Z.eqb_spec r0 0); congruence.
    + destruct ocr, ocr0, bb, bb0; cbn in *; congruence.
    + destruct ocr, ocr0, il, il0; cbn in *; congruence.
    + destruct ocr, ocr0, dt, dt0; cbn in *; congruence.
  - intros (Hp & Ho & Ht & Hr & Hsub).
    config_fields c1 pt ocr t bb il owt r dt.
    config_fields c2 pt0 ocr0 t0 bb0 il0 owt0 r0 dt0. subst.
    destruct ocr0.
    + destruct Hsub as (-> & -> & ->); reflexivity.
    + reflexivity.
Qed.

(** X11: a config that passed construction serializes only valid values:
    its timeout header is a positive integer and its rotate_angle header
    is 90, 180 or 270. *)
Theorem X11_config_headers_valid (f c : Config.TextExtractionConfig) :
  Config.new f = Ok c → valid_header_values (Config.to_headers c).
Proof.
  intros (-> & Ht & Hr)%config_new_Ok_iff. split.
  - intros t. rewrite config_timeout_header.
    destruct (Config.timeout f) as [n|]; [|discriminate].
    intros [= <-]. exists n. split; [done|]. by apply Ht.
  - intros r. rewrite config_rotate_header.
    destruct (Z.eqb_spec (Config.rotate_angle f) 0); [discriminate|].
    intros [= <-]. exists (Config.rotate_angle f). split.
    + unfold angles in Hr. rewrite !elem_of_cons, elem_of_nil in *. lia.
    + apply Z.eqb_refl.
Qed.

Lemma X11_config_headers_valid_witness :
  valid_header_values
    (<["timeout" := PInt 30]> (<["rotate_angle" := PInt 90]>
      (<["with_ocr" := PBool true]>
      (<["with_bounding_boxes" := PBool true]>
      (<["as_plain_text" := PBool true]> ∅))))).
Proof.
  assert (E : Config.to_headers config_ocr_fields
              = <["timeout" := PInt 30]> (<["rotate_angle" := PInt 90]>
                (<["with_ocr" := PBool true]>
                (<["with_bounding_boxes" := PBool true]>
                (<["as_plain_text" := PBool true]> ∅))))) by by_eval.
  rewrite <- E.
  apply (X11_config_headers_valid config_ocr_fields). reflexivity.
Defined.

(** ** [4.functional.py] *)

Lemma valid_iff (c : Functional.call) :
  valid c ↔
  match c with
  | Functional.CallWithTimeout v => ∃ n, as_int v = Some n ∧ 0 < n
  | Functional.CallWithRotation v => py_in v angles = true
  | _ => True
  end.
Proof.
  unfold valid. destruct c as [|v|v|i b d]; cbn [Functional.eval_call].
  - split; [done|]. by eexists.
  - split.
    + by intros [o [? _]%WithTimeout_Ok].
    + intros H. eexists. apply WithTimeout_Ok. done.
  - split.
    + by intros [o [? _]%WithRotation_Ok].
    + intros H. eexists. apply WithRotation_Ok. done.
  - split; [done|]. by eexists.
Qed.

Lemma denote_union (c : Functional.call) (h : dict) :
  valid c → denote c h = updates (denote c) ∪ h.
Proof.
  intros [o Ho]. unfold denote. rewrite Ho.
  apply (eval_call_overrides _ _ Ho).
Qed.

(** What a valid call writes, whatever option it evaluated to. *)
Lemma denote_updates_lookup (c : Functional.call) (k : string) (x : pyval) :
  valid c → updates (denote c) !! k = Some x →
  match c with
  | Functional.CallAsPlainText => k = "as_plain_text" ∧ x = PBool true
  | Functional.CallWithTimeout v => k = "timeout" ∧ x = v
  | Functional.CallWithRotation v =>
      k = "rotate_angle" ∧ x = v ∧ py_eq_int v 0 = false
  | Functional.CallWithOCR _ _ _ => k ∈ ocr_keys ∧ x = PBool true
  end.
Proof.
  intros [o Ho]. unfold denote. rewrite Ho. by apply updates_lookup.
Qed.

Lemma apply_calls_app (cs1 cs2 : list Functional.call) (h : dict) :
  apply_calls (cs1 ++ cs2) h = apply_calls cs2 (apply_calls cs1 h).
Proof. apply fold_left_app. Qed.

Lemma apply_calls_invariant (P : dict → Prop) (cs : list Functional.call)
    (h : dict) :
  (∀ c h', c ∈ cs → valid c → P h' → P (denote c h')) →
  Forall valid cs → P h → P (apply_calls cs h).
Proof.
  intros Hstep Hv. revert h. induction Hv as [|c cs Hc _ IH]; intros h Hh.
  - exact Hh.
  - apply IH.
    + intros c' h' Hin. apply Hstep. by right.
    + apply Hstep; [by left|done..].
Qed.

(** A header is present after the calls iff a call wrote it or it was
    there before: nothing is ever removed. *)
Lemma apply_calls_is_Some (cs : list Functional.call) (h : dict) (k : string) :
  Forall valid cs →
  is_Some (apply_calls cs h !! k)
  ↔ (∃ c, c ∈ cs ∧ is_Some (updates (denote c) !! k)) ∨ is_Some (h !! k).
Proof.
  intros Hv. revert h. induction Hv as [|c cs Hc _ IH]; intros h.
  - cbn. split; [by right|]. intros [(c & Hin & _)|H]; [|done].
    by apply elem_of_nil in Hin.
  - change (apply_calls (c :: cs) h) with (apply_calls cs (denote c h)).
    rewrite IH, (denote_union c h Hc), lookup_union_is_Some. split.
    + intros [(c' & Hin & Hw)|[Hw|Hh]].
      * left. exists c'. split; [by right|done].
      * left. exists c. split; [by left|done].
      * by right.
    + intros [(c' & Hin & Hw)|Hh].
      * apply elem_of_cons in Hin as [->|Hin]; [right; by left|].
        left. by exists c'.
      * right. by right.
Qed.

(** The value of a header was written by some call or was there before. *)
Lemma apply_calls_lookup_Some (cs : list Functional.call) (h : dict)
    (k : string) (x : pyval) :
  Forall valid cs → apply_calls cs h !! k = Some x →
  (∃ c, c ∈ cs ∧ updates (denote c) !! k = Some x) ∨ h !! k = Some x.
Proof.
  intros Hv. revert h. induction Hv as [|c cs Hc _ IH]; intros h.
  - by right.
  - change (apply_calls (c :: cs) h) with (apply_calls cs (denote c h)).
    intros [(c' & Hin & Hw)|Hh]%IH.
    + left. exists c'. split; [by right|done].
    + rewrite (denote_union c h Hc) in Hh.
      apply lookup_union_Some_raw in Hh as [Hw|[_ Hh]].
      * left. exists c. split; [by left|done].
      * by right.
Qed.

(** Calls that do not write a header leave it as it was. *)
Lemma apply_calls_unwritten (cs : list Functional.call) (h : dict)
    (k : string) :
  Forall valid cs →
  (∀ c, c ∈ cs → updates (denote c) !! k = None) →
  apply_calls cs h !! k = h !! k.
Proof.
  intros Hv. revert h. induction Hv as [|c cs Hc _ IH]; intros h Hn.
  - reflexivity.
  - change (apply_calls (c :: cs) h) with (apply_calls cs (denote c h)).
    rewrite IH by (intros c' Hin; apply Hn; by right).
    rewrite (denote_union c h Hc), lookup_union_r; [done|].
    apply Hn. by left.
Qed.

(** X12: a functional-options call builds a header map exactly when every
    WithTimeout argument is a positive integer and every WithRotation
    argument equals one of 0, 90, 180, 270. *)
Theorem X12_functional_succeeds_iff (cs : list Functional.call) :
  (∃ h, Functional.get_text_calls cs = Ok h)
  ↔ (∀ v, Functional.CallWithTimeout v ∈ cs → ∃ n, as_int v = Some n ∧ 0 < n)
    ∧ (∀ v, Functional.CallWithRotation v ∈ cs → py_in v angles = true).
Proof.
  split.
  - intros [h [Hv _]%get_text_calls_Ok]. rewrite Forall_forall in Hv.
    split; intros v Hin; apply Hv in Hin; by apply valid_iff in Hin.
  - intros [Ht Hr]. eexists. apply get_text_calls_Ok. split; [|done].
    apply Forall_forall. intros c Hin. apply valid_iff.
    destruct c; [done|by apply Ht|by apply Hr|done].
Qed.

(** X14: every option is idempotent: applying it twice in a row gives the
    same dictionary as applying it once. *)
Theorem X14_option_idempotent
    (c : Functional.call) (o : Functional.Option) (opt : dict) :
  Functional.eval_call c = Ok o → o (o opt) = o opt.
Proof.
  intros Ho. rewrite !(eval_call_overrides _ _ Ho opt).
  rewrite (eval_call_overrides _ _ Ho (updates o ∪ opt)).
  by rewrite (assoc_L (∪)), (idemp_L (∪)).
Qed.

Lemma X14_option_idempotent_witness :
  Functional.WithOCR (Some true) None None
    (Functional.WithOCR (Some true) None None {[ "timeout" := PInt 5 ]})
  = Functional.WithOCR (Some true) None None {[ "timeout" := PInt 5 ]}.
Proof.
  apply (X14_option_idempotent
           (Functional.CallWithOCR (Some true) None None)).
  reflexivity.
Defined.

#[local] Set Warnings "-clear-no-such-hyp".

(** Closes a goal whose hypothesis says that one header name equals
    another. *)
Ltac absurd_key U :=
  let H := fresh in
  destruct U as [H _]; unfold ocr_keys in H;
  rewrite ?elem_of_cons, ?elem_of_nil in H;
  repeat (destruct H as [H|H]; [discriminate H|]);
  first [discriminate H | contradiction].

Lemma writes_iff (c : Functional.call) (k : string) :
  valid c → is_Some (updates (denote c) !! k) ↔ writes c k.
Proof.
  intros [o Ho]. unfold denote. rewrite Ho. unfold updates.
  pose proof (@is_Some_None pyval) as Hnone.
  destruct c as [|v|v|i b d]; cbn [Functional.eval_call writes] in *.
  - injection Ho as <-. unfold Functional.AsPlainText.
    rewrite lookup_insert_is_Some', lookup_empty. naive_solver.
  - apply WithTimeout_Ok in Ho as [_ ->].
    rewrite lookup_insert_is_Some', lookup_empty. naive_solver.
  - apply WithRotation_Ok in Ho as [_ ->].
    destruct (py_eq_int v 0); cbn [negb].
    + rewrite lookup_empty. naive_solver.
    + rewrite lookup_insert_is_Some', lookup_empty. naive_solver.
  - injection Ho as <-. unfold Functional.WithOCR; cbv zeta.
    destruct i as [[]|], b as [[]|], d as [[]|]; cbn;
      rewrite ?lookup_insert_is_Some', lookup_empty; naive_solver.
Qed.

Lemma get_text_calls_lookup (cs : list Functional.call) (h : dict)
    (k : string) (x : pyval) :
  Functional.get_text_calls cs = Ok h → h !! k = Some x →
  ∃ c, c ∈ cs ∧ valid c ∧ updates (denote c) !! k = Some x.
Proof.
  intros [Hv ->]%get_text_calls_Ok Hk.
  apply apply_calls_lookup_Some in Hk; [|done].
  destruct Hk as [(c & Hin & Hw)|Hk].
  - exists c. rewrite Forall_forall in Hv. auto.
  - by rewrite lookup_empty in Hk.
Qed.

Lemma get_text_calls_is_Some (cs : list Functional.call) (h : dict)
    (k : string) :
  Functional.get_text_calls cs = Ok h →
  is_Some (h !! k) ↔ ∃ c, c ∈ cs ∧ writes c k.
Proof.
  intros [Hv ->]%get_text_calls_Ok.
  rewrite (apply_calls_is_Some _ _ _ Hv), lookup_empty.
  rewrite Forall_forall in Hv. split.
  - intros [(c & Hin & Hw)|[x Hx]]; [|done].
    exists c. split; [done|]. by apply writes_iff; auto.
  - intros (c & Hin & Hw). left. exists c. split; [done|].
    by apply writes_iff; auto.
Qed.

Lemma flag_header_value (cs : list Functional.call) (h : dict)
    (k : string) (x : pyval) :
  Functional.get_text_calls cs = Ok h →
  k ≠ "timeout" → k ≠ "rotate_angle" → h !! k = Some x → x = PBool true.
Proof.
  intros Hh Ht Hr Hk.
  destruct (get_text_calls_lookup _ _ _ _ Hh Hk) as (c & _ & Hc & Hw).
  pose proof (denote_updates_lookup c k x Hc Hw) as U.
  destruct c; naive_solver.
Qed.

(** X15: supplying further options never removes a header: every key of
    the map built from a list of options is a key of the map built from
    any extension of the list. *)
Theorem X15_functional_headers_grow
    (cs cs' : list Functional.call) (h h' : dict) (k : string) :
  Functional.get_text_calls cs = Ok h →
  Functional.get_text_calls (cs ++ cs') = Ok h' →
  is_Some (h !! k) → is_Some (h' !! k).
Proof.
  intros [_ ->]%get_text_calls_Ok [Hv ->]%get_text_calls_Ok Hk.
  rewrite apply_calls_app. apply Forall_app in Hv as [_ Hv'].
  apply apply_calls_is_Some; [done|]. by right.
Qed.

Lemma X15_functional_headers_grow_witness :
  is_Some (({[ "rotate_angle" := PInt 90 ]} : dict) !! "rotate_angle").
Proof.
  apply (X15_functional_headers_grow
           [Functional.CallWithRotation (PInt 90)]
           [Functional.CallWithRotation (PInt 0)]
           {[ "rotate_angle" := PInt 90 ]} _ "rotate_angle").
  - by_eval.
  - by_eval.
  - by eexists.
Defined.

(** X16: the timeout header holds the argument of the last WithTimeout of
    the call, whatever other options precede or follow it. *)
Theorem X16_last_timeout_wins
    (cs1 cs2 : list Functional.call) (v : pyval) (h : dict) :
  Functional.get_text_calls (cs1 ++ Functional.CallWithTimeout v :: cs2) = Ok h →
  (∀ v', Functional.CallWithTimeout v' ∉ cs2) →
  h !! "timeout" = Some v.
Proof.
  intros [Hv ->]%get_text_calls_Ok Hlast.
  apply Forall_app in Hv as [_ [Hc Hv2]%Forall_cons].
  rewrite apply_calls_app.
  change (apply_calls (?c :: cs2) ?h0) with (apply_calls cs2 (denote c h0)).
  rewrite apply_calls_unwritten; [|done|].
  - rewrite (denote_union _ _ Hc). apply lookup_union_Some_l.
    destruct Hc as [o Ho]. unfold denote. rewrite Ho.
    cbn [Functional.eval_call] in Ho. apply WithTimeout_Ok in Ho as [_ ->].
    apply lookup_insert_eq.
  - intros c Hin. rewrite Forall_forall in Hv2.
    destruct (updates (denote c) !! "timeout") as [x|] eqn:Hx; [|done].
    pose proof (denote_updates_lookup c _ x (Hv2 c Hin) Hx) as U.
    destruct c; [absurd_key U| |absurd_key U|absurd_key U].
    by apply Hlast in Hin.
Qed.

Lemma X16_last_timeout_wins_witness :
  ({[ "timeout" := PInt 20 ]} : dict) !! "timeout" = Some (PInt 20).
Proof.
  apply (X16_last_timeout_wins
           [Functional.CallWithTimeout (PInt 10)] [] (PInt 20)).
  - by_eval.
  - intros v' Hin. by apply elem_of_nil in Hin.
Defined.

(** X17: the rotate_angle header holds the argument of the last non-zero
    WithRotation of the call; rotations of 0 that follow it do not clear
    it. *)
Theorem X17_last_nonzero_rotation_wins
    (cs1 cs2 : list Functional.call) (v : pyval) (h : dict) :
  Functional.get_text_calls (cs1 ++ Functional.CallWithRotation v :: cs2)
  = Ok h →
  py_eq_int v 0 = false →
  (∀ v', Functional.CallWithRotation v' ∈ cs2 → py_eq_int v' 0 = true) →
  h !! "rotate_angle" = Some v.
Proof.
  intros [Hv ->]%get_text_calls_Ok Hnz Hlast.
  apply Forall_app in Hv as [_ [Hc Hv2]%Forall_cons].
  rewrite apply_calls_app.
  change (apply_calls (?c :: cs2) ?h0) with (apply_calls cs2 (denote c h0)).
  rewrite apply_calls_unwritten; [|done|].
  - rewrite (denote_union _ _ Hc). apply lookup_union_Some_l.
    destruct Hc as [o Ho]. unfold denote. rewrite Ho.
    cbn [Functional.eval_call] in Ho. apply WithRotation_Ok in Ho as [_ ->].
    unfold updates. rewrite Hnz. cbn [negb]. apply lookup_insert_eq.
  - intros c Hin. rewrite Forall_forall in Hv2.
    destruct (updates (denote c) !! "rotate_angle") as [x|] eqn:Hx; [|done].
    pose proof (denote_updates_lookup c _ x (Hv2 c Hin) Hx) as U.
    destruct c; [absurd_key U|absurd_key U| |absurd_key U].
    destruct U as (_ & _ & U). apply Hlast in Hin. congruence.
Qed.

Lemma X17_last_nonzero_rotation_wins_witness :
  ({[ "rotate_angle" := PInt 90 ]} : dict) !! "rotate_angle" = Some (PInt 90).
Proof.
  apply (X17_last_nonzero_rotation_wins
           [] [Functional.CallWithRotation (PInt 0)] (PInt 90)).
  - by_eval.
  - reflexivity.
  - intros v' [= ->]%list_elem_of_singleton. reflexivity.
Defined.

(** X18: in a map built by functional options each flag header, when
    present, is True, and it is present exactly when some option of the
    call asked for it: as_plain_text iff AsPlainText() occurs, with_ocr iff
    a WithOCR occurs, inline_ocr / with_bounding_boxes / detect_tables iff
    a WithOCR with that argument True occurs, even if another WithOCR
    passes False for it. *)
Theorem X18_functional_flags (cs : list Functional.call) (h : dict) :
  Functional.get_text_calls cs = Ok h →
  (h !! "as_plain_text" = Some (PBool true)
   ↔ Functional.CallAsPlainText ∈ cs)
  ∧ (h !! "with_ocr" = Some (PBool true)
     ↔ ∃ i b d, Functional.CallWithOCR i b d ∈ cs)
  ∧ (h !! "inline_ocr" = Some (PBool true)
     ↔ ∃ b d, Functional.CallWithOCR (Some true) b d ∈ cs)
  ∧ (h !! "with_bounding_boxes" = Some (PBool true)
     ↔ ∃ i d, Functional.CallWithOCR i (Some true) d ∈ cs)
  ∧ (h !! "detect_tables" = Some (PBool true)
     ↔ ∃ i b, Functional.CallWithOCR i b (Some true) ∈ cs).
Proof.
  intros Hh.
  assert (Hflag : ∀ k, k ≠ "timeout" → k ≠ "rotate_angle" →
            h !! k = Some (PBool true) ↔ ∃ c, c ∈ cs ∧ writes c k).
  { intros k Ht Hr. rewrite <- (get_text_calls_is_Some _ _ _ Hh). split.
    - by eexists.
    - intros [x Hx]. by rewrite (flag_header_value _ _ _ _ Hh Ht Hr Hx) in Hx. }
  rewrite !Hflag by done. clear Hflag Hh.
  repeat split.
  all: try (intros (c & Hin & Hw); destruct c; cbn [writes] in Hw;
            naive_solver).
  all: intros Hin; repeat destruct Hin as [? Hin];
    eexists; (split; [exact Hin|]); cbn [writes]; naive_solver.
Qed.

Lemma X18_functional_flags_witness :
  (<["with_ocr" := PBool true]> (<["inline_ocr" := PBool true]> ∅) : dict)
    !! "inline_ocr" = Some (PBool true).
Proof.
  destruct (X18_functional_flags
              [Functional.CallWithOCR (Some true) None None;
               Functional.CallWithOCR (Some false) None None]
              (<["with_ocr" := PBool true]>
                 (<["inline_ocr" := PBool true]> ∅)))
    as (_ & _ & H & _); [by_eval|].
  apply H. exists None, None. by left.
Defined.

(** X19: a map built by functional options has no key outside
    as_plain_text, timeout, rotate_angle, with_ocr, inline_ocr,
    with_bounding_boxes, detect_tables (so never Accept, SkipOCR or
    ocr_with_text), its timeout is a positive integer and its rotate_angle
    equals 90, 180 or 270. *)
Theorem X19_functional_headers_valid
    (cs : list Functional.call) (h : dict) :
  Functional.get_text_calls cs = Ok h →
  (∀ k, is_Some (h !! k) → k ∈ option_keys) ∧ valid_header_values h.
Proof.
  intros Hh. split; [|split].
  - intros k (c & _ & Hw)%(get_text_calls_is_Some _ _ _ Hh).
    unfold option_keys. rewrite !elem_of_cons.
    destruct c; cbn [writes] in Hw; naive_solver.
  - intros t Ht.
    destruct (get_text_calls_lookup _ _ _ _ Hh Ht) as (c & _ & Hc & Hw).
    pose proof (denote_updates_lookup c _ _ Hc Hw) as U.
    destruct c; [absurd_key U| |absurd_key U|absurd_key U].
    destruct U as [_ ->]. by apply valid_iff in Hc.
  - intros r Hr.
    destruct (get_text_calls_lookup _ _ _ _ Hh Hr) as (c & _ & Hc & Hw).
    pose proof (denote_updates_lookup c _ _ Hc Hw) as U.
    destruct c; [absurd_key U|absurd_key U| |absurd_key U].
    destruct U as (_ & -> & Hnz). apply valid_iff in Hc.
    apply existsb_exists in Hc as (n & Hn%list_elem_of_In & Heq).
    exists n. split; [|done]. unfold angles in Hn.
    rewrite !elem_of_cons, elem_of_nil in *.
    destruct Hn as [->|Hn]; [congruence|tauto].
Qed.

Lemma X19_functional_headers_valid_witness :
  valid_header_values ({[ "timeout" := PBool true ]} : dict).
Proof.
  apply (X19_functional_headers_valid
           [Functional.CallWithTimeout (PBool true)]).
  by_eval.
Defined.

(** ** [5.chains.py] *)

(** X20: a fluent chain builds exactly what the functional style builds
    from the same settings in the same order, with_ocr(...) passing its own
    default inline=True, and raises exactly when it raises, with the same
    exception. *)
Theorem X20_chain_is_functional (steps : list Chains.step) :
  Chains.get_text_chain steps
  = Functional.get_text_calls (call_of_step <$> steps).
Proof. apply chains_as_functional. Qed.

(** X22: in a fluent chain the inline_ocr header is present exactly when
    some with_ocr step did not pass inline=False: leaving inline out counts
    as asking for it. *)
Theorem X22_chain_inline_ocr (ss : list Chains.step) (h : dict) :
  Chains.get_text_chain ss = Ok h →
  h !! "inline_ocr" = Some (PBool true)
  ↔ ∃ i b d, Chains.StepWithOcr i b d ∈ ss ∧ i ≠ Some false.
Proof.
  rewrite chains_as_functional. intros Hh.
  assert (h !! "inline_ocr" = Some (PBool true)
          ↔ ∃ c, c ∈ call_of_step <$> ss ∧ writes c "inline_ocr") as ->.
  { rewrite <- (get_text_calls_is_Some _ _ _ Hh). split; [by eexists|].
    intros [x Hx].
    by rewrite (flag_header_value _ _ "inline_ocr" _ Hh) in Hx. }
  split.
  - intros (c & (s & -> & Hin)%list_elem_of_fmap_1 & Hw).
    destruct s as [|i b d|v|v]; cbn [call_of_step writes] in Hw.
    + discriminate.
    + exists i, b, d. split; [done|].
      destruct Hw as [|[[_ Hi]|[[? _]|[? _]]]]; try discriminate.
      intros ->. discriminate.
    + discriminate.
    + by destruct Hw.
  - intros (i & b & d & Hin & Hi).
    exists (call_of_step (Chains.StepWithOcr i b d)).
    split; [by apply list_elem_of_fmap_2|].
    cbn [call_of_step writes]. right; left. split; [done|].
    by destruct i as [[]|].
Qed.

Lemma X22_chain_inline_ocr_witness :
  (<["with_ocr" := PBool true]> (<["inline_ocr" := PBool true]> ∅) : dict)
    !! "inline_ocr" = Some (PBool true).
Proof.
  apply (X22_chain_inline_ocr [Chains.StepWithOcr None None None]).
  - by_eval.
  - exists None, None, None. split; [by left | discriminate].
Defined.

(** ** [3.config.py] against [4.functional.py] *)

(** X23: for a config that passed construction, to_headers builds exactly
    the map the functional style builds from the corresponding options
    (WithTimeout, WithRotation, WithOCR with the three sub-options,
    AsPlainText). *)
Theorem X23_config_is_functional (f c : Config.TextExtractionConfig) :
  Config.new f = Ok c →
  Functional.get_text_calls (calls_of_config c) = Ok (Config.to_headers c).
Proof.
  intros (-> & Ht & Hr)%config_new_Ok_iff.
  assert (Hin : py_in (PInt (Config.rotate_angle f)) angles = true).
  { apply (py_in_angles_true _ (Config.rotate_angle f) Hr), Z.eqb_refl. }
  unfold Functional.get_text_calls, calls_of_config, Config.to_headers.
  config_fields f pt ocr t bb il owt r dt. cbv zeta.
  assert (Hrot : Functional.WithRotation (PInt r)
                 = Ok (λ opt : dict, if negb (r =? 0)
                                     then <["rotate_angle" := PInt r]> opt
                                     else opt)).
  { unfold Functional.WithRotation. by rewrite Hin. }
  destruct t as [t|].
  - assert (Htime : Functional.WithTimeout (PInt t)
                    = Ok (λ opt : dict, <["timeout" := PInt t]> opt)).
    { unfold Functional.WithTimeout. cbn [as_int].
      specialize (Ht t eq_refl). by destruct (Z.leb_spec t 0); [lia|]. }
    destruct ocr, pt;
      cbn [app Functional.eval_calls Functional.eval_call];
      rewrite Htime, Hrot; cbn [mbind result_bind];
      unfold Functional.get_text; cbn [fold_left];
      unfold Functional.WithOCR, Functional.AsPlainText;
      destruct bb, il, dt; cbv beta iota zeta delta [default from_option id];
      first [ reflexivity
            | by rewrite (insert_insert_ne _ "with_bounding_boxes" "inline_ocr") ].
  - destruct ocr, pt;
      cbn [app Functional.eval_calls Functional.eval_call];
      rewrite Hrot; cbn [mbind result_bind];
      unfold Functional.get_text; cbn [fold_left];
      unfold Functional.WithOCR, Functional.AsPlainText;
      destruct bb, il, dt; cbv beta iota zeta delta [default from_option id];
      first [ reflexivity
            | by rewrite (insert_insert_ne _ "with_bounding_boxes" "inline_ocr") ].
Qed.

Lemma X23_config_is_functional_witness :
  Functional.get_text_calls (calls_of_config config_ocr_fields)
  = Ok (Config.to_headers config_ocr_fields).
Proof.
  apply (X23_config_is_functional config_ocr_fields). reflexivity.
Defined.
